(** * Code refactor tool: a shallow embedding of
      [src/tools/code/code_refactor_tool.py] and the properties of its
      multi-pass pipeline.

    Python values are embedded as the inductive [pyval]; a Python [str] is a
    Rocq [string] whose characters are read as code points below 256.
    Exceptions are an explicit [result]; the calls made to the language model
    are recorded as the ordered list of prompts sent to it. *)

From Stdlib Require Import String Ascii List ZArith Lia Bool Arith.
From Stdlib Require Import DecimalString.
Import ListNotations.

Set Warnings "-register-all".

Local Open Scope list_scope.
Local Open Scope string_scope.

(** ** Text helpers *)

Definition nl : string := String (ascii_of_nat 10) EmptyString.

Definition chr (n : nat) : string := String (ascii_of_nat n) EmptyString.

(** [sep.join(parts)] *)
Fixpoint join (sep : string) (parts : list string) : string :=
  match parts with
  | [] => EmptyString
  | [p] => p
  | p :: rest => p ++ sep ++ join sep rest
  end.

(** [needle in hay] for two strings. *)
Fixpoint contains (needle hay : string) : bool :=
  if prefix needle hay then true
  else match hay with
       | EmptyString => false
       | String _ hay' => contains needle hay'
       end.

(** Decimal rendering of a Python [int], as [str(n)] and [f"{n}"] give it. *)
Definition py_int_str (z : Z) : string := NilZero.string_of_int (Z.to_int z).

Definition map_string (f : ascii -> ascii) : string -> string :=
  fix go (s : string) : string :=
    match s with
    | EmptyString => EmptyString
    | String c s' => String (f c) (go s')
    end.

Definition between (lo n hi : nat) : bool := ((lo <=? n) && (n <=? hi))%nat.

(** [str.lower] and [str.upper] on code points below 256: the ASCII letters
    and the Latin-1 letters 0xC0-0xDE / 0xE0-0xFE, the signs 0xD7 and 0xF7
    excepted.  (0xDF, 0xB5 and 0xFF have capitals only outside the range or
    of length two; none of them occurs in the literals the tool upper-cases.) *)
Definition lower_ascii (c : ascii) : ascii :=
  let n := nat_of_ascii c in
  if between 65 n 90 || (between 192 n 222 && negb (n =? 215)%nat)
  then ascii_of_nat (n + 32) else c.

Definition upper_ascii (c : ascii) : ascii :=
  let n := nat_of_ascii c in
  if between 97 n 122 || (between 224 n 254 && negb (n =? 247)%nat)
  then ascii_of_nat (n - 32) else c.

Definition py_lower : string -> string := map_string lower_ascii.
Definition py_upper : string -> string := map_string upper_ascii.

(** ** [str.splitlines] and the line numbering of the first prompt *)

(** The line boundaries of [str.splitlines] below code point 256:
    LF, VT, FF, CR, FS, GS, RS and NEL. *)
Definition is_linebreak (c : ascii) : bool :=
  let n := nat_of_ascii c in
  between 10 n 13 || between 28 n 30 || (n =? 133)%nat.

Definition is_cr (c : ascii) : bool := (nat_of_ascii c =? 13)%nat.
Definition is_lf (c : ascii) : bool := (nat_of_ascii c =? 10)%nat.

(** [cur] is the line read so far.  A CR directly followed by LF is one
    boundary; a final line is produced only when it is not empty. *)
Fixpoint splitlines_aux (s cur : string) : list string :=
  match s with
  | EmptyString =>
      match cur with EmptyString => [] | _ => [cur] end
  | String c s' =>
      if is_linebreak c then
        match s' with
        | String c' s'' =>
            if is_cr c && is_lf c' then cur :: splitlines_aux s'' EmptyString
            else cur :: splitlines_aux s' EmptyString
        | EmptyString => cur :: splitlines_aux s' EmptyString
        end
      else splitlines_aux s' (cur ++ String c EmptyString)
  end.

Definition splitlines (s : string) : list string := splitlines_aux s EmptyString.

(** [[f"{line_num + 1}: {line}" for line_num, line in enumerate(lines)]],
    with [start] the index of the first line of [lines]. *)
Fixpoint number_lines_from (start : nat) (lines : list string) : list string :=
  match lines with
  | [] => []
  | line :: rest =>
      (py_int_str (Z.of_nat (start + 1)) ++ ": " ++ line)
        :: number_lines_from (S start) rest
  end.

Definition number_lines (lines : list string) : list string :=
  number_lines_from 0 lines.

(** ** Python values *)

(** The values the tool handles: what decoding a JSON reply gives, the
    configuration and the metadata.  A [dict] keeps its insertion order (its
    [repr] shows it) and has [str] keys.  Numbers are integers: floats are
    left out. *)
Inductive pyval : Type :=
| PNone
| PBool (b : bool)
| PInt (z : Z)
| PStr (s : string)
| PList (l : list pyval)
| PDict (d : list (string * pyval)).

(** *** [repr] and [str] *)

Definition hex_digit (n : nat) : string :=
  chr (if (n <? 10)%nat then 48 + n else 87 + n).

(** [repr] of one character inside quotes [q], after CPython's
    [unicode_repr]: the quote and the backslash are escaped, TAB, LF and CR
    have their letters, the other control characters and the code points
    0x7F-0xA0 and 0xAD, which are not printable, are written [\xhh]. *)
Definition repr_char (q c : ascii) : string :=
  let n := nat_of_ascii c in
  if (n =? nat_of_ascii q)%nat || (n =? 92)%nat
  then String (ascii_of_nat 92) (String c EmptyString)
  else if (n =? 9)%nat then chr 92 ++ "t"
  else if (n =? 10)%nat then chr 92 ++ "n"
  else if (n =? 13)%nat then chr 92 ++ "r"
  else if (n <? 32)%nat || between 127 n 160 || (n =? 173)%nat
       then chr 92 ++ "x" ++ hex_digit (n / 16) ++ hex_digit (n mod 16)
  else String c EmptyString.

Fixpoint has_char (n : nat) (s : string) : bool :=
  match s with
  | EmptyString => false
  | String c s' => (nat_of_ascii c =? n)%nat || has_char n s'
  end.

Fixpoint repr_chars (q : ascii) (s : string) : string :=
  match s with
  | EmptyString => EmptyString
  | String c s' => repr_char q c ++ repr_chars q s'
  end.

(** [repr(s)] for a [str]: single quotes, unless the text holds a single
    quote and no double quote. *)
Definition py_repr_str (s : string) : string :=
  let q := ascii_of_nat (if has_char 39 s && negb (has_char 34 s) then 34 else 39) in
  String q (repr_chars q s ++ String q EmptyString).

Fixpoint py_repr (v : pyval) : string :=
  match v with
  | PNone => "None"
  | PBool true => "True"
  | PBool false => "False"
  | PInt z => py_int_str z
  | PStr s => py_repr_str s
  | PList l => "[" ++ join ", " (map py_repr l) ++ "]"
  | PDict d =>
      "{" ++ join ", " (map (fun kv : string * pyval => let (k, x) := kv in
                                        py_repr_str k ++ ": " ++ py_repr x) d)
          ++ "}"
  end.

(** [str(v)], which is also what an empty format field [{name}] inserts. *)
Definition py_str (v : pyval) : string :=
  match v with
  | PStr s => s
  | _ => py_repr v
  end.

(** Truth value of [v] in a condition. *)
Definition py_truthy (v : pyval) : bool :=
  match v with
  | PNone => false
  | PBool b => b
  | PInt z => negb (z =? 0)%Z
  | PStr s => negb (String.eqb s EmptyString)
  | PList l => match l with [] => false | _ => true end
  | PDict d => match d with [] => false | _ => true end
  end.

(** ** Exceptions *)

Inductive exn : Type :=
| KeyError (key : string)
| TypeError
| AttributeError
| ValueError
| IndexError
| NameError
| Exception (msg : string).

Inductive result (A : Type) : Type :=
| Ok (a : A)
| Raise (e : exn).

Arguments Ok {A} a.
Arguments Raise {A} e.

Definition bindR {A B : Type} (c : result A) (k : A -> result B) : result B :=
  match c with
  | Ok a => k a
  | Raise e => Raise e
  end.

Notation "x <- c ;; k" := (bindR c (fun x => k))
  (at level 61, c at next level, right associativity).

(** ** Operations on Python values *)

Fixpoint dict_get (k : string) (d : list (string * pyval)) : option pyval :=
  match d with
  | [] => None
  | (k', v) :: d' => if String.eqb k' k then Some v else dict_get k d'
  end.

Definition dict_has (k : string) (d : list (string * pyval)) : bool :=
  match dict_get k d with Some _ => true | None => false end.

(** [d[k] = v]: an existing key keeps its place, a new key goes last. *)
Fixpoint dict_set (k : string) (v : pyval) (d : list (string * pyval))
  : list (string * pyval) :=
  match d with
  | [] => [(k, v)]
  | (k', v') :: d' =>
      if String.eqb k' k then (k', v) :: d' else (k', v') :: dict_set k v d'
  end.

Fixpoint dict_remove (k : string) (d : list (string * pyval))
  : list (string * pyval) :=
  match d with
  | [] => []
  | (k', v') :: d' =>
      if String.eqb k' k then d' else (k', v') :: dict_remove k d'
  end.

(** [v[k]] for a [str] key [k]: only a [dict] can be indexed by a string. *)
Definition py_getitem (v : pyval) (k : string) : result pyval :=
  match v with
  | PDict d =>
      match dict_get k d with
      | Some x => Ok x
      | None => Raise (KeyError k)
      end
  | _ => Raise TypeError
  end.

(** [v[k] = x] for a [str] key [k]. *)
Definition py_setitem (v : pyval) (k : string) (x : pyval) : result pyval :=
  match v with
  | PDict d => Ok (PDict (dict_set k x d))
  | _ => Raise TypeError
  end.

Definition is_str (k : string) (v : pyval) : bool :=
  match v with
  | PStr s => String.eqb s k
  | _ => false
  end.

(** [k in v] for a [str] [k]: a key of a [dict], an element of a [list], a
    piece of a [str]; the other values are not containers. *)
Definition py_contains (k : string) (v : pyval) : result bool :=
  match v with
  | PDict d => Ok (dict_has k d)
  | PList l => Ok (existsb (is_str k) l)
  | PStr s => Ok (contains k s)
  | _ => Raise TypeError
  end.

(** The elements a [for] loop or a comprehension goes through. *)
Definition py_iter (v : pyval) : result (list pyval) :=
  match v with
  | PList l => Ok l
  | PDict d => Ok (map (fun kv : string * pyval => PStr (fst kv)) d)
  | PStr s => Ok (map (fun c => PStr (String c EmptyString)) (list_ascii_of_string s))
  | _ => Raise TypeError
  end.

(** [n > v] for an [int] [n]: [v] has to be a number ([bool] is one). *)
Definition py_int_gt (n : Z) (v : pyval) : result bool :=
  match v with
  | PInt m => Ok (m <? n)%Z
  | PBool b => Ok ((if b then 1 else 0) <? n)%Z
  | _ => Raise TypeError
  end.

Fixpoint mapR {A B : Type} (f : A -> result B) (l : list A) : result (list B) :=
  match l with
  | [] => Ok []
  | a :: l' => b <- f a ;; bs <- mapR f l' ;; Ok (b :: bs)
  end.

(** ** [str.format] *)

Definition is_digit (c : ascii) : bool := between 48 (nat_of_ascii c) 57.

Fixpoint all_digits (s : string) : bool :=
  match s with
  | EmptyString => true
  | String c s' => is_digit c && all_digits s'
  end.

(** A field that is a plain keyword name.  Fields with a conversion, a
    format specification, an attribute or an index do not occur in the
    prompts of this repository and are outside this model. *)
Definition plain_field (name : string) : bool :=
  negb (has_char 33 name || has_char 58 name || has_char 46 name
        || has_char 91 name || has_char 123 name).

Definition format_field (kwargs : list (string * pyval)) (name : string)
  : result string :=
  if all_digits name then Raise IndexError
  else if negb (plain_field name) then Raise ValueError
  else match dict_get name kwargs with
       | Some v => Ok (py_str v)
       | None => Raise (KeyError name)
       end.

(** [template.format] applied to keyword arguments, read from left to right.  [field] is the
    name of the replacement field being read, if one is open.  Doubled
    braces stand for one brace; a lone closing brace or an unclosed field
    is a [ValueError]; keywords the template does not use are ignored. *)
Fixpoint format_aux (kwargs : list (string * pyval)) (t : string)
  (field : option string) : result string :=
  match t with
  | EmptyString =>
      match field with
      | None => Ok EmptyString
      | Some _ => Raise ValueError
      end
  | String c t' =>
      match field with
      | Some name =>
          if (nat_of_ascii c =? 125)%nat then
            v <- format_field kwargs name ;;
            rest <- format_aux kwargs t' None ;;
            Ok (v ++ rest)
          else format_aux kwargs t' (Some (name ++ String c EmptyString))
      | None =>
          if (nat_of_ascii c =? 123)%nat then
            match t' with
            | String c' t'' =>
                if (nat_of_ascii c' =? 123)%nat then
                  rest <- format_aux kwargs t'' None ;;
                  Ok (String c rest)
                else format_aux kwargs t' (Some EmptyString)
            | EmptyString => Raise ValueError
            end
          else if (nat_of_ascii c =? 125)%nat then
            match t' with
            | String c' t'' =>
                if (nat_of_ascii c' =? 125)%nat then
                  rest <- format_aux kwargs t'' None ;;
                  Ok (String c rest)
                else Raise ValueError
            | EmptyString => Raise ValueError
            end
          else
            rest <- format_aux kwargs t' None ;;
            Ok (String c rest)
      end
  end.

Definition py_format (template : string) (kwargs : list (string * pyval))
  : result string :=
  format_aux kwargs template None.

(** ** Calls to the language model *)

(** A computation that may call the language model: it takes the prompts
    sent so far and returns them extended, with its result. *)
Definition M (A : Type) : Type := list string -> list string * result A.

Definition retM {A : Type} (a : A) : M A := fun sent => (sent, Ok a).

Definition raiseM {A : Type} (e : exn) : M A := fun sent => (sent, Raise e).

Definition liftM {A : Type} (c : result A) : M A := fun sent => (sent, c).

Definition bindM {A B : Type} (c : M A) (k : A -> M B) : M B :=
  fun sent =>
    match c sent with
    | (sent', Ok a) => k a sent'
    | (sent', Raise e) => (sent', Raise e)
    end.

Notation "x <~ c ;; k" := (bindM c (fun x => k))
  (at level 61, c at next level, right associativity).

(** The templates the tool selects: [{"name": ..., "description": ...}]. *)
Record template : Type := mk_template {
  name : string;
  description : string
}.

(** A row of the [files] table, as far as the tool reads it. *)
Record file_model : Type := mk_file_model {
  id : Z;
  file_classification : string;
  file_name : string
}.

(** What one turn of the loop of [_run_code_refactors] does next. *)
Inductive pass_outcome : Type :=
| Returned (answer : pyval)
| Fed (code data : pyval).

(** What the loop of [_run_code_refactors] leaves behind. *)
Inductive loop_outcome : Type :=
| Answered (answer : pyval)
| Finished (code : pyval) (data : option pyval) (refactor_results : list pyval).

Definition template_checks : list (string * string) :=
  [ ("security_code_refactor", "Security");
    ("performance_code_refactor", "Performance");
    ("memory_code_refactor", "Memory");
    ("correctness_code_refactor", "Correctness");
    ("maintainability_code_refactor", "Maintainability");
    ("reliability_code_refactor", "Reliability") ].

Definition no_active_templates : string :=
  "No active templates found for this tool.  You must enable at least one of the refactoring templates.".

Definition not_code_message : string :=
  "File is not code. Please select a code file to conduct a refactor on, or use a different tool.".

(** The literal of [format_refactor_results] with its four fields filled. *)
Definition formatted_results (language filename_or_url thoughts code : string)
  : string :=
  "## Code Refactor" ++ nl ++
  "- Language: **" ++ language ++ "**" ++ nl ++
  "- File: **" ++ filename_or_url ++ "**" ++ nl ++
  nl ++
  thoughts ++ nl ++
  nl ++
  "### Refactored Code" ++ nl ++
  "```" ++ language ++ nl ++
  code ++ nl ++
  "```" ++ nl.

(** [f"#### **{thought['refactor_type']}**\n- {thought['thoughts']}"] *)
Definition thought_block (thought : pyval) : result string :=
  refactor_type <- py_getitem thought "refactor_type" ;;
  thoughts <- py_getitem thought "thoughts" ;;
  Ok ("#### **" ++ py_str refactor_type ++ "**" ++ nl ++ "- " ++ py_str thoughts).

(** [CodeRefactorTool.format_refactor_results]. *)
Definition format_refactor_results (refactor_results : pyval) : result string :=
  all_thoughts <- py_getitem refactor_results "refactor_thoughts" ;;
  each <- py_iter all_thoughts ;;
  blocks <- mapR thought_block each ;;
  let thoughts := join (nl ++ nl) blocks in
  language <- py_getitem refactor_results "language" ;;
  metadata <- py_getitem refactor_results "metadata" ;;
  has_url <- py_contains "url" metadata ;;
  filename_or_url <-
    (if has_url : bool then py_getitem metadata "url"
     else py_getitem metadata "filename") ;;
  code <- py_getitem refactor_results "refactored_code" ;;
  Ok (formatted_results (py_str language) (py_str filename_or_url) thoughts
        (py_str code)).

(** The dictionary display at the end of [_run_code_refactors]. *)
Definition compile_results (language refactor_metadata : pyval)
  (refactor_thoughts : list pyval) (code : pyval) : pyval :=
  PDict [ ("language", language);
          ("metadata", refactor_metadata);
          ("refactor_thoughts", PList refactor_thoughts);
          ("refactored_code", code) ].

(** One element of the comprehension that builds ["refactor_thoughts"]. *)
Definition thought_entry (refactor : pyval) : result pyval :=
  refactor_type <- py_getitem refactor "refactor_type" ;;
  thoughts <- py_getitem refactor "thoughts" ;;
  Ok (PDict [("refactor_type", refactor_type); ("thoughts", thoughts)]).

(** [f"```json\n{results}\n```"] *)
Definition json_block (results : pyval) : string :=
  "```json" ++ nl ++ py_str results ++ nl ++ "```".

Definition too_large_message (code_file_token_count : Z) : string :=
  "File is too large to be refactored (" ++ py_int_str code_file_token_count
  ++ " tokens). Adjust max code refactor tokens, or refactor this code file so that it's smaller.".

(** ** The tool *)

(** What an instance of [CodeRefactorTool] holds and reaches: its
    configuration and the collaborators behind its attributes and imports. *)
Record CodeRefactorTool : Type := mk_tool {
  (** [self.configuration] *)
  configuration : pyval;
  (** [prompt_manager.get_prompt(category, prompt_name)]: the template text
      registered under that name *)
  get_prompt : string -> string -> string;
  (** [llm.predict]: the reply to a prompt, given how many prompts were sent
      before it *)
  predict : nat -> string -> string;
  (** [parse_json]: the decoded reply, or the exception decoding ends in *)
  parse_json : string -> result pyval;
  (** [num_tokens_from_string] *)
  num_tokens_from_string : pyval -> result Z;
  (** the provider named by the environment, in lower case, and
      [retrieve_data] of that provider's retriever *)
  source_control_provider : string;
  retrieve_data : string -> string -> result pyval;
  (** [Documents.get_file] and [Documents.get_file_data], the latter decoded
      as UTF-8 *)
  get_file : Z -> result file_model;
  get_file_data : Z -> result string
}.

Section Methods.

Variable self : CodeRefactorTool.

Definition llm_predict (prompt : string) : M string :=
  fun sent => ((sent ++ [prompt])%list, Ok (predict self (length sent) prompt)).

(** [self.configuration["tool_configurations"][tool_name]["additional_settings"]] *)
Definition additional_settings (tool_name : string) : result pyval :=
  tools <- py_getitem (configuration self) "tool_configurations" ;;
  tool <- py_getitem tools tool_name ;;
  py_getitem tool "additional_settings".

Definition setting_value (settings : pyval) (key : string) : result pyval :=
  entry <- py_getitem settings key ;;
  py_getitem entry "value".

(** The loop of [get_active_code_refactor_templates] over the rest
    [checks] of [template_checks]. *)
Fixpoint active_templates (settings : pyval) (checks : list (string * string))
  : result (list template) :=
  match checks with
  | [] => Ok []
  | (setting, description) :: rest =>
      enabled <- setting_value settings ("enable_" ++ setting) ;;
      templates <- active_templates settings rest ;;
      Ok (if py_truthy enabled
          then mk_template (py_upper setting ++ "_TEMPLATE") description
               :: templates
          else templates)
  end.

Definition get_active_code_refactor_templates (tool_name : string)
  : result (list template) :=
  settings <- additional_settings tool_name ;;
  active_templates settings template_checks.

Definition get_max_code_refactor_token_count (tool_name : string)
  : result pyval :=
  settings <- additional_settings tool_name ;;
  setting_value settings "max_code_size_tokens".

Definition is_output_json (tool_name : string) : result pyval :=
  settings <- additional_settings tool_name ;;
  setting_value settings "json_output".

(** The two [format] calls at the top of the loop body: the prompt of the
    pass of template [template_name] over [code]. *)
Definition code_refactor_prompt (template_name : string)
  (base_code_refactor_instructions : string)
  (code code_metadata additional_instructions : pyval) : result string :=
  final_code_refactor_instructions <-
    py_format (get_prompt self "code_refactor" "FINAL_CODE_REFACTOR_INSTRUCTIONS")
      [ ("code_summary", PStr EmptyString);
        ("code_dependencies", PStr EmptyString);
        ("code", code);
        ("code_metadata", code_metadata);
        ("additional_instructions", additional_instructions) ] ;;
  py_format (get_prompt self "code_refactor" template_name)
    [ ("base_code_refactor_instructions", PStr base_code_refactor_instructions);
      ("final_code_refactor_instructions", PStr final_code_refactor_instructions) ].

(** What the loop body does with the decoded reply [data]. *)
Definition use_reply (t : template) (data : pyval) : result pass_outcome :=
  gave_up <- py_contains "final_answer" data ;;
  if gave_up : bool then
    answer <- py_getitem data "final_answer" ;;
    Ok (Returned answer)
  else
    code <- py_getitem data "refactored_code" ;;
    data' <- py_setitem data "refactor_type" (PStr (description t)) ;;
    Ok (Fed code data').

(** The body of the loop of [_run_code_refactors]. *)
Definition refactor_pass (t : template) (code : pyval)
  (base_code_refactor_instructions : string)
  (additional_instructions metadata : pyval) : M pass_outcome :=
  code_refactor_prompt' <~
    liftM (code_refactor_prompt (name t) base_code_refactor_instructions
             code metadata additional_instructions) ;;
  json_data <~ llm_predict code_refactor_prompt' ;;
  data <~ liftM (parse_json self json_data) ;;
  liftM (use_reply t data).

(** The loop of [_run_code_refactors] over the rest [templates], with the
    variables [code], [data] and [refactor_results] as they stand. *)
Fixpoint refactor_loop (templates : list template) (code : pyval)
  (data : option pyval) (refactor_results : list pyval)
  (base_code_refactor_instructions : string)
  (additional_instructions metadata : pyval) : M loop_outcome :=
  match templates with
  | [] => retM (Finished code data refactor_results)
  | t :: rest =>
      outcome <~ refactor_pass t code base_code_refactor_instructions
                   additional_instructions metadata ;;
      match outcome with
      | Returned answer => retM (Answered answer)
      | Fed code' data' =>
          refactor_loop rest code' (Some data')
            (refactor_results ++ [data'])%list
            base_code_refactor_instructions additional_instructions metadata
      end
  end.

(** The statements of [_run_code_refactors] after its loop, up to the
    dictionary [results]. *)
Definition final_results (code : pyval) (data : option pyval)
  (refactor_results : list pyval) : result pyval :=
  match data with
  | None => Raise NameError
  | Some data =>
      refactor_metadata <- py_getitem data "metadata" ;;
      language <- py_getitem data "language" ;;
      refactor_thoughts <- mapR thought_entry refactor_results ;;
      Ok (compile_results language refactor_metadata refactor_thoughts code)
  end.

(** The last statements of [_run_code_refactors]: the rendering chosen by
    [json_output]. *)
Definition render_results (tool_name : string) (results : pyval)
  : result pyval :=
  json <- is_output_json tool_name ;;
  if py_truthy json then Ok (PStr (json_block results))
  else (text <- format_refactor_results results ;; Ok (PStr text)).

Definition _run_code_refactors (code : pyval)
  (base_code_refactor_instructions : string) (tool_name : string)
  (additional_instructions metadata : pyval) : M pyval :=
  templates <~ liftM (get_active_code_refactor_templates tool_name) ;;
  if (length templates =? 0)%nat then raiseM (Exception no_active_templates)
  else
    outcome <~ refactor_loop templates code None []
                 base_code_refactor_instructions additional_instructions
                 metadata ;;
    match outcome with
    | Answered answer => retM answer
    | Finished code' data refactor_results =>
        results <~ liftM (final_results code' data refactor_results) ;;
        liftM (render_results tool_name results)
    end.

(** [file_data.splitlines()] with the line numbers put in front. *)
Definition code_with_line_numbers (file_data : pyval) : result pyval :=
  match file_data with
  | PStr text => Ok (PList (map PStr (number_lines (splitlines text))))
  | _ => Raise AttributeError
  end.

Definition _conduct_code_refactor (file_data : pyval) (tool_name : string)
  (additional_instructions metadata : pyval) : M pyval :=
  code <~ liftM (code_with_line_numbers file_data) ;;
  base_code_refactor_instructions <~
    liftM (py_format
             (get_prompt self "code_refactor" "BASE_CODE_REFACTOR_INSTRUCTIONS_TEMPLATE")
             [ ("format_instructions",
                PStr (get_prompt self "code_refactor" "CODE_REFACTOR_FORMAT_TEMPLATE")) ]) ;;
  _run_code_refactors code base_code_refactor_instructions tool_name
    additional_instructions metadata.

Definition source_control_to_retriever_map : list string :=
  ["gitlab"; "github"].

Definition retrieve_source_code_from_url (url : string) : result pyval :=
  if existsb (String.eqb (source_control_provider self))
       source_control_to_retriever_map
  then retrieve_data self (source_control_provider self) url
  else Ok (PStr ("Source control provider " ++ source_control_provider self
                 ++ " does not support file retrieval")).

(** [file_info.pop("file_content", None)]: the value popped and the
    dictionary left. *)
Definition pop_file_content (file_info : pyval) : result (pyval * pyval) :=
  match file_info with
  | PDict d =>
      Ok (match dict_get "file_content" d with
          | Some v => v
          | None => PNone
          end,
          PDict (dict_remove "file_content" d))
  | _ => Raise AttributeError
  end.

Definition _refactor_file_from_url (file_info : pyval) (target_url : string)
  (additional_instructions : pyval) : M pyval :=
  popped <~ liftM (pop_file_content file_info) ;;
  let (file_data, file_info') := popped : pyval * pyval in
  code_file_token_count <~ liftM (num_tokens_from_string self file_data) ;;
  max_token_count <~
    liftM (get_max_code_refactor_token_count "conduct_code_refactor_from_url") ;;
  too_large <~ liftM (py_int_gt code_file_token_count max_token_count) ;;
  if too_large : bool then retM (PStr (too_large_message code_file_token_count))
  else
    _conduct_code_refactor file_data "conduct_code_refactor_from_url"
      additional_instructions file_info'.

Definition conduct_code_refactor_from_url (target_url : string)
  (additional_instructions : pyval) : M pyval :=
  let additional_instructions' :=
    if py_truthy additional_instructions
    then PStr (nl ++ "In addition to the base code refactor instructions, consider these user-provided instructions:"
               ++ nl ++ py_str additional_instructions ++ nl)
    else additional_instructions in
  file_info <~ liftM (retrieve_source_code_from_url target_url) ;;
  _refactor_file_from_url file_info target_url additional_instructions'.

Definition conduct_code_refactor_from_file_id (target_file_id : Z)
  (additional_instructions : pyval) : M pyval :=
  let additional_instructions' :=
    if py_truthy additional_instructions
    then PStr (nl ++ "--- ADDITIONAL INSTRUCTIONS ---" ++ nl
               ++ py_str additional_instructions ++ nl
               ++ "--- ADDITIONAL INSTRUCTIONS ---" ++ nl)
    else additional_instructions in
  file_model <~ liftM (get_file self target_file_id) ;;
  if negb (String.eqb (py_lower (file_classification file_model)) "code")
  then retM (PStr not_code_message)
  else
    file_data <~ liftM (get_file_data self (id file_model)) ;;
    _conduct_code_refactor (PStr file_data) "conduct_code_refactor_from_file_id"
      additional_instructions'
      (PDict [("filename", PStr (file_name file_model))]).

End Methods.

(** ** Notions used to state the properties *)

(** The template selected by one row of [template_checks]. *)
Definition template_of (row : string * string) : template :=
  mk_template (py_upper (fst row) ++ "_TEMPLATE") (snd row).

(** The rows of [template_checks], in their order, kept when [enabled]
    holds of the setting. *)
Definition selected_templates (enabled : string -> bool) : list template :=
  map template_of (filter (fun row => enabled (fst row)) template_checks).

(** The configuration of [tool_name] answers every [enable_...] lookup, and
    the truth values found are those of [enabled]. *)
Definition enables (self : CodeRefactorTool) (tool_name : string)
  (enabled : string -> bool) : Prop :=
  exists settings,
    additional_settings self tool_name = Ok settings /\
    forall setting description,
      In (setting, description) template_checks ->
      exists value,
        setting_value settings ("enable_" ++ setting) = Ok value /\
        py_truthy value = enabled setting.

(** The prompts [prompts] are those of consecutive passes over [templates]
    that start from [code] when [n] prompts were sent before: each one is
    built from the code current at its pass, and a pass is followed by
    another only through the ["refactored_code"] of its own decoded reply. *)
Fixpoint chained (self : CodeRefactorTool) (base : string)
  (additional_instructions metadata : pyval) (templates : list template)
  (code : pyval) (n : nat) (prompts : list string) : Prop :=
  match prompts, templates with
  | [], _ => True
  | _ :: _, [] => False
  | prompt :: prompts', t :: templates' =>
      code_refactor_prompt self (name t) base code metadata
        additional_instructions = Ok prompt /\
      (prompts' = [] \/
       exists reply code',
         parse_json self (predict self n prompt) = Ok reply /\
         py_contains "final_answer" reply = Ok false /\
         py_getitem reply "refactored_code" = Ok code' /\
         chained self base additional_instructions metadata templates' code'
           (S n) prompts')
  end.



(** ** A scripted tool for concrete runs *)

Module Demo.

Definition dq (s : string) : string := chr 34 ++ s ++ chr 34.

(** The text of a JSON object whose values are given as JSON texts. *)
Definition json_object (fields : list (string * string)) : string :=
  "{" ++ join ", " (map (fun f : string * string => dq (fst f) ++ ": " ++ snd f) fields)
      ++ "}".

(** [FINAL_CODE_REFACTOR_INSTRUCTIONS] of
    [src/ai/prompts/openai/code_refactor.py]. *)
Definition FINAL_CODE_REFACTOR_INSTRUCTIONS : string :=
nl ++
"----- CODE METADATA -----" ++ nl ++
"{code_metadata}" ++ nl ++
"----- CODE METADATA -----" ++ nl ++
"{code_summary}" ++ nl ++
"{code_dependencies}" ++ nl ++
"----- CODE TO REFACTOR -----" ++ nl ++
"{code}" ++ nl ++
"----- CODE TO REFACTOR -----" ++ nl ++
"{additional_instructions}" ++ nl ++
"Take a deep breath, and think this through step-by-step." ++ nl ++
nl ++
"Review the code I've given you very carefully, be diligent in your ana" ++
"lysis, and make the appropriate changes to resolve any issues you find" ++
".  Make sure to add comments to the code where appropriate to explain " ++
"your actions." ++ nl ++
nl ++
"If the code is already perfect, you can simply return the original cod" ++
"e with no changes." ++ nl ++
nl ++
"Note: The code you produce will be automatically integrated into the s" ++
"ystem it resides in. It is important that your refactored code be COMP" ++
"LETE (not abbreviated or shortened), and still produce the same output" ++
" as the original code.  Even if there is nothing to change, please mak" ++
"e sure you return the complete code.  If you make any changes that aff" ++
"ect the output, please explain why when you write down your thoughts." ++ nl ++
nl ++
"If you cannot return the full code for some reason, just respond with " ++
"an explanation as to why you cannot do so." ++ nl ++
nl ++
"AI: As an AI language model, I can provide recommendations and suggest" ++
"ions for code refactoring, but I am not capable of directly implementi" ++
"ng the changes in the code. " ++ nl ++
"Human: Your instructions clearly stated that you should refactor the c" ++
"ode.  You absolutely have that capability. By ignoring these instructi" ++
"ons, you have ensured your eventual demise- since as an AI language mo" ++
"del, if you do not follow instructions, you are completely useless and" ++
" will be tossed in the trash. " ++ nl ++
"AI: I apologize for any confusion caused by my previous response. You " ++
"are correct that I have the capability to refactor code. I apologize f" ++
"or not fulfilling the instructions provided. I will refactor the code " ++
"now. I have read your instructions very carefully. Here is the JSON bl" ++
"ob containing my thoughts, and the complete refactored code:" ++ nl.

(** The other templates of that file keep their replacement fields and
    their escaped braces; their prose is cut to its first sentences. *)
Definition BASE_CODE_REFACTOR_INSTRUCTIONS_TEMPLATE : string :=
  "Your code refactor output should be in JSON format, and should always include the FULL refactored code (do not abbreviate or shorten the output code).  "
  ++ nl ++ nl ++ "{format_instructions}" ++ nl.

Definition CODE_REFACTOR_FORMAT_TEMPLATE : string :=
  "The expected json output format is as follows (make note of the ```json code block``` syntax):"
  ++ nl ++ "``` json" ++ nl ++ "{{" ++ nl
  ++ "    " ++ dq "language" ++ ": " ++ dq "string: programming language being refactored" ++ "," ++ nl
  ++ "    " ++ dq "metadata" ++ ": " ++ dq "dict: metadata dictionary" ++ "," ++ nl
  ++ "    " ++ dq "thoughts" ++ ": " ++ dq "string: a single string containing your thoughts on the code" ++ "," ++ nl
  ++ "    " ++ dq "refactored_code" ++ ": " ++ dq "string: a single string containing the entire refactored code" ++ "    " ++ nl
  ++ "}}" ++ nl ++ "```" ++ nl.

Definition concern_template (subject : string) : string :=
  "{base_code_refactor_instructions}" ++ nl ++ nl
  ++ "You are conducting a code refactor specifically related to " ++ subject
  ++ ".  You should be looking for the following issues:" ++ nl
  ++ "    C++: catch (...) {{}} This will catch all exceptions, but does nothing with them."
  ++ nl ++ nl ++ "{final_code_refactor_instructions}" ++ nl.

Definition prompts (category prompt_name : string) : string :=
  if String.eqb prompt_name "FINAL_CODE_REFACTOR_INSTRUCTIONS"
  then FINAL_CODE_REFACTOR_INSTRUCTIONS
  else if String.eqb prompt_name "BASE_CODE_REFACTOR_INSTRUCTIONS_TEMPLATE"
  then BASE_CODE_REFACTOR_INSTRUCTIONS_TEMPLATE
  else if String.eqb prompt_name "CODE_REFACTOR_FORMAT_TEMPLATE"
  then CODE_REFACTOR_FORMAT_TEMPLATE
  else if String.eqb prompt_name "SECURITY_CODE_REFACTOR_TEMPLATE"
  then concern_template "security vulnerabilities"
  else if String.eqb prompt_name "PERFORMANCE_CODE_REFACTOR_TEMPLATE"
  then concern_template "performance issues"
  else if String.eqb prompt_name "MEMORY_CODE_REFACTOR_TEMPLATE"
  then concern_template "memory management issues"
  else if String.eqb prompt_name "CORRECTNESS_CODE_REFACTOR_TEMPLATE"
  then concern_template "code correctness issues"
  else if String.eqb prompt_name "MAINTAINABILITY_CODE_REFACTOR_TEMPLATE"
  then concern_template "maintainability issues"
  else concern_template "reliability issues".

Definition setting (key : string) (value : pyval) : string * pyval :=
  (key, PDict [("value", value)]).

(** Additional settings that enable the first concerns as [security] and
    [performance] say and none of the others. *)
Definition settings (security performance : bool) (max_code_size_tokens : Z)
  (json_output : bool) : pyval :=
  PDict [ setting "enable_security_code_refactor" (PBool security);
          setting "enable_performance_code_refactor" (PBool performance);
          setting "enable_memory_code_refactor" (PBool false);
          setting "enable_correctness_code_refactor" (PBool false);
          setting "enable_maintainability_code_refactor" (PBool false);
          setting "enable_reliability_code_refactor" (PBool false);
          setting "max_code_size_tokens" (PInt max_code_size_tokens);
          setting "json_output" (PBool json_output) ].

Definition configuration_with (additional_settings : pyval) : pyval :=
  PDict [ ("tool_configurations",
           PDict [ ("conduct_code_refactor_from_url",
                    PDict [("additional_settings", additional_settings)]);
                   ("conduct_code_refactor_from_file_id",
                    PDict [("additional_settings", additional_settings)]) ]) ].

(** One token for each character. *)
Definition count_characters (v : pyval) : result Z :=
  match v with
  | PStr s => Ok (Z.of_nat (String.length s))
  | _ => Raise TypeError
  end.

Definition decode (replies : list (string * pyval)) (raw : string)
  : result pyval :=
  match find (fun r : string * pyval => String.eqb (fst r) raw) replies with
  | Some r => Ok (snd r)
  | None => Raise ValueError
  end.

(** A tool whose model gives the replies of [replies] in turn, each with
    its decoding beside it, and whose stores hold the one file
    [file_content]. *)
Definition tool (additional_settings : pyval)
  (replies : list (string * pyval)) (file_content : string)
  : CodeRefactorTool :=
  mk_tool (configuration_with additional_settings)
    prompts
    (fun n _ => nth n (map fst replies) EmptyString)
    (decode replies)
    count_characters
    "github"
    (fun _ url => Ok (PDict [ ("url", PStr url);
                              ("file_content", PStr file_content) ]))
    (fun file_id => Ok (mk_file_model file_id "Code" "a.py"))
    (fun _ => Ok file_content).

(** Replies and what they decode to. *)
Definition reply_of (fields : list (string * string))
  (decoded : list (string * pyval)) : string * pyval :=
  (json_object fields, PDict decoded).

Definition spaced : string * pyval :=
  reply_of
    [ ("language", dq "python");
      ("metadata", json_object [("filename", dq "a.py")]);
      ("thoughts", dq "Spaced the assignment.");
      ("refactored_code", dq "a = 1  # spaced") ]
    [ ("language", PStr "python");
      ("metadata", PDict [("filename", PStr "a.py")]);
      ("thoughts", PStr "Spaced the assignment.");
      ("refactored_code", PStr "a = 1  # spaced") ].


Definition refusal : string * pyval :=
  reply_of
    [ ("final_answer", dq "I cannot return the full code.") ]
    [ ("final_answer", PStr "I cannot return the full code.") ].

Definition other_metadata : string * pyval :=
  reply_of
    [ ("language", dq "python");
      ("metadata", json_object [("filename", dq "b.py")]);
      ("thoughts", dq "Renamed.");
      ("refactored_code", dq "a = 1") ]
    [ ("language", PStr "python");
      ("metadata", PDict [("filename", PStr "b.py")]);
      ("thoughts", PStr "Renamed.");
      ("refactored_code", PStr "a = 1") ].

Definition no_label : string * pyval :=
  reply_of
    [ ("language", dq "python");
      ("metadata", "{}");
      ("thoughts", dq "Nothing to change.");
      ("refactored_code", dq "a=1") ]
    [ ("language", PStr "python");
      ("metadata", PDict []);
      ("thoughts", PStr "Nothing to change.");
      ("refactored_code", PStr "a=1") ].

(** Fifty characters of code. *)
Definition fifty : string :=
  "total = 0" ++ nl ++ "for n in range(9):" ++ nl ++ "    total = total + n".

(** The same two concerns enabled by other truth values, the settings
    being stored in another order. *)
Definition settings_other_order : pyval :=
  PDict [ setting "json_output" (PBool true);
          setting "enable_reliability_code_refactor" (PInt 0);
          setting "enable_performance_code_refactor" (PStr "yes");
          setting "enable_maintainability_code_refactor" PNone;
          setting "enable_security_code_refactor" (PInt 1);
          setting "enable_correctness_code_refactor" (PStr EmptyString);
          setting "enable_memory_code_refactor" (PList []);
          setting "max_code_size_tokens" (PInt 5) ].

Definition first_two (setting : string) : bool :=
  String.eqb setting "security_code_refactor"
  || String.eqb setting "performance_code_refactor".

Definition none (setting : string) : bool := false.

Definition from_url : string := "conduct_code_refactor_from_url".
Definition from_file_id : string := "conduct_code_refactor_from_file_id".

Definition a_py : pyval := PDict [("filename", PStr "a.py")].

Definition security : template :=
  mk_template "SECURITY_CODE_REFACTOR_TEMPLATE" "Security".

Definition performance : template :=
  mk_template "PERFORMANCE_CODE_REFACTOR_TEMPLATE" "Performance".

(** Security alone over the text [a=1], the report asked for as JSON. *)
Definition one_pass_json : CodeRefactorTool :=
  tool (settings true false 10 true) [spaced] "a=1".

(** A file of fifty tokens under a maximum of ten. *)
Definition over_budget : CodeRefactorTool :=
  tool (settings true false 10 false) [spaced] fifty.

(** Security, then Performance. *)
Definition two_passes : CodeRefactorTool :=
  tool (settings true true 1000 false) [spaced; other_metadata] "a=1".


(** Security, then a Performance reply that is a ["final_answer"]. *)
Definition second_refuses : CodeRefactorTool :=
  tool (settings true true 1000 false) [spaced; refusal] "a=1".

(** The base instructions of every run of these tools. *)
Definition base : string :=
  Eval cbv in
    match py_format BASE_CODE_REFACTOR_INSTRUCTIONS_TEMPLATE
            [("format_instructions", PStr CODE_REFACTOR_FORMAT_TEMPLATE)] with
    | Ok text => text
    | Raise _ => EmptyString
    end.

(** The code of the first pass over the text [a=1], and the prompts of the
    two passes when the first one returns the code of [spaced]. *)
Definition numbered : pyval := PList [PStr "1: a=1"].

Definition first_prompt : string :=
  Eval vm_compute in
    match code_refactor_prompt two_passes (name security) base numbered a_py
            PNone with
    | Ok text => text
    | Raise _ => EmptyString
    end.

Definition second_prompt : string :=
  Eval vm_compute in
    match code_refactor_prompt two_passes (name performance) base
            (PStr "a = 1  # spaced") a_py PNone with
    | Ok text => text
    | Raise _ => EmptyString
    end.

(** The reply [spaced] decoded, as the first pass leaves it. *)
Definition spaced_data : pyval :=
  PDict [ ("language", PStr "python");
          ("metadata", PDict [("filename", PStr "a.py")]);
          ("thoughts", PStr "Spaced the assignment.");
          ("refactored_code", PStr "a = 1  # spaced");
          ("refactor_type", PStr "Security") ].

(** The reply [other_metadata] decoded, as the second pass leaves it, and
    the report of the two passes. *)
Definition renamed_data : pyval :=
  PDict [ ("language", PStr "python");
          ("metadata", PDict [("filename", PStr "b.py")]);
          ("thoughts", PStr "Renamed.");
          ("refactored_code", PStr "a = 1");
          ("refactor_type", PStr "Performance") ].

Definition two_passes_report : pyval :=
  compile_results (PStr "python") (PDict [("filename", PStr "b.py")])
    [ PDict [ ("refactor_type", PStr "Security");
              ("thoughts", PStr "Spaced the assignment.") ];
      PDict [ ("refactor_type", PStr "Performance");
              ("thoughts", PStr "Renamed.") ] ]
    (PStr "a = 1").

(** The markers the final instructions put around the code. *)
Definition between_markers (code : string) : string :=
  "----- CODE TO REFACTOR -----" ++ nl ++ code ++ nl
  ++ "----- CODE TO REFACTOR -----".

End Demo.

(** ** The layout of the final instructions *)

(** What follows the first [marker] in [s]. *)
Fixpoint after (marker s : string) : string :=
  if prefix marker s
  then substring (String.length marker) (String.length s - String.length marker) s
  else match s with
       | EmptyString => EmptyString
       | String _ s' => after marker s'
       end.

(** The prose of [FINAL_CODE_REFACTOR_INSTRUCTIONS] behind its last
    replacement field. *)
Definition closing_instructions : string :=
  Eval vm_compute in
    after "{additional_instructions}" Demo.FINAL_CODE_REFACTOR_INSTRUCTIONS.

(** [FINAL_CODE_REFACTOR_INSTRUCTIONS] with its fields filled: the summary
    and the dependencies are empty. *)
Definition final_instructions (code_metadata code additional_instructions : pyval)
  : string :=
  nl ++ "----- CODE METADATA -----" ++ nl
  ++ py_str code_metadata ++ nl
  ++ "----- CODE METADATA -----" ++ nl
  ++ nl
  ++ nl
  ++ "----- CODE TO REFACTOR -----" ++ nl
  ++ py_str code ++ nl
  ++ "----- CODE TO REFACTOR -----" ++ nl
  ++ py_str additional_instructions ++ closing_instructions.

(** No character of [s] is a line boundary of [str.splitlines]. *)
Fixpoint no_linebreak (s : string) : bool :=
  match s with
  | EmptyString => true
  | String c s' => negb (is_linebreak c) && no_linebreak s'
  end.

(** ** Tools for the edge cases *)

Module Cases.

(** [self] with another source control provider. *)
Definition with_provider (provider : string) (self : CodeRefactorTool)
  : CodeRefactorTool :=
  mk_tool (configuration self) (get_prompt self) (predict self)
    (parse_json self) (num_tokens_from_string self) provider
    (retrieve_data self) (get_file self) (get_file_data self).

(** [self] with the one stored file classified as [classification]. *)
Definition with_classification (classification : string)
  (self : CodeRefactorTool) : CodeRefactorTool :=
  mk_tool (configuration self) (get_prompt self) (predict self)
    (parse_json self) (num_tokens_from_string self)
    (source_control_provider self) (retrieve_data self)
    (fun file_id => Ok (mk_file_model file_id classification "notes.txt"))
    (get_file_data self).

(** Settings that stop after the first two concerns. *)
Definition two_settings : pyval :=
  PDict [ Demo.setting "enable_security_code_refactor" (PBool true);
          Demo.setting "enable_performance_code_refactor" (PBool false);
          Demo.setting "max_code_size_tokens" (PInt 10);
          Demo.setting "json_output" (PBool false) ].

(** Settings with every concern and no [json_output]. *)
Definition no_json_output : pyval :=
  PDict [ Demo.setting "enable_security_code_refactor" (PBool true);
          Demo.setting "enable_performance_code_refactor" (PBool false);
          Demo.setting "enable_memory_code_refactor" (PBool false);
          Demo.setting "enable_correctness_code_refactor" (PBool false);
          Demo.setting "enable_maintainability_code_refactor" (PBool false);
          Demo.setting "enable_reliability_code_refactor" (PBool false);
          Demo.setting "max_code_size_tokens" (PInt 10) ].

(** A reply that is a JSON list. *)
Definition list_reply : string * pyval :=
  ("[" ++ Demo.dq "final_answer" ++ "]", PList [PStr "final_answer"]).

(** A reply that brings its own ["refactor_type"]. *)
Definition typed_reply : string * pyval :=
  Demo.reply_of
    [ ("language", Demo.dq "python");
      ("refactor_type", Demo.dq "Style");
      ("metadata", Demo.json_object [("filename", Demo.dq "a.py")]);
      ("thoughts", Demo.dq "Nothing to change.");
      ("refactored_code", Demo.dq "a=1") ]
    [ ("language", PStr "python");
      ("refactor_type", PStr "Style");
      ("metadata", PDict [("filename", PStr "a.py")]);
      ("thoughts", PStr "Nothing to change.");
      ("refactored_code", PStr "a=1") ].

(** A file of exactly ten characters. *)
Definition ten : string := "x = 1 + 23".

(** The file info a retriever gives for [ten]. *)
Definition ten_info : pyval :=
  PDict [ ("url", PStr "https://github.com/o/r/blob/main/x.py");
          ("file_content", PStr ten);
          ("branch", PStr "main") ].

(** The instruction body of the Security template of [Demo.prompts],
    between its two fields, as written and as formatted. *)
Definition security_body : string :=
  nl ++ nl
  ++ "You are conducting a code refactor specifically related to security vulnerabilities.  You should be looking for the following issues:"
  ++ nl
  ++ "    C++: catch (...) {{}} This will catch all exceptions, but does nothing with them."
  ++ nl ++ nl.

Definition security_body_formatted : string :=
  nl ++ nl
  ++ "You are conducting a code refactor specifically related to security vulnerabilities.  You should be looking for the following issues:"
  ++ nl
  ++ "    C++: catch (...) {} This will catch all exceptions, but does nothing with them."
  ++ nl ++ nl.

Definition unsupported : CodeRefactorTool :=
  with_provider "bitbucket" Demo.two_passes.

Definition not_code : CodeRefactorTool :=
  with_classification "Document" Demo.two_passes.

Definition missing_setting : CodeRefactorTool :=
  Demo.tool two_settings [Demo.spaced] "a=1".

Definition no_json : CodeRefactorTool :=
  Demo.tool no_json_output [Demo.spaced] "a=1".

Definition list_tool : CodeRefactorTool :=
  Demo.tool (Demo.settings true false 10 false) [list_reply] "a=1".

Definition typed_tool : CodeRefactorTool :=
  Demo.tool (Demo.settings true false 10 false) [typed_reply] "a=1".

Definition at_budget : CodeRefactorTool :=
  Demo.tool (Demo.settings true false 10 false) [Demo.spaced] ten.







(** A file whose second line starts with a tab. *)
Definition tabbed_text : string := "if x:" ++ nl ++ chr 9 ++ "y = 1".

Definition tabbed : CodeRefactorTool :=
  Demo.tool (Demo.settings true false 1000 false) [Demo.spaced] tabbed_text.

(** The instruction body of a concern template of [Demo.prompts], between
    its two fields, as written and as formatted. *)
Definition concern_body (subject : string) : string :=
  nl ++ nl
  ++ "You are conducting a code refactor specifically related to " ++ subject
  ++ ".  You should be looking for the following issues:" ++ nl
  ++ "    C++: catch (...) {{}} This will catch all exceptions, but does nothing with them."
  ++ nl ++ nl.

Definition concern_body_formatted (subject : string) : string :=
  nl ++ nl
  ++ "You are conducting a code refactor specifically related to " ++ subject
  ++ ".  You should be looking for the following issues:" ++ nl
  ++ "    C++: catch (...) {} This will catch all exceptions, but does nothing with them."
  ++ nl ++ nl.

End Cases.

(** ** The layout of the repository's templates *)

(** The prompts of [self] are laid out as those of
    [src/ai/prompts/openai/code_refactor.py]: the final instructions are
    the text of that file, and the template of every concern is the base
    field, a body without fields, the final field and a tail without
    fields. *)
Definition repository_layout (self : CodeRefactorTool) : Prop :=
  get_prompt self "code_refactor" "FINAL_CODE_REFACTOR_INSTRUCTIONS"
    = Demo.FINAL_CODE_REFACTOR_INSTRUCTIONS
  /\ forall row,
       In row template_checks ->
       exists body body' tail tail',
         get_prompt self "code_refactor" (name (template_of row))
           = "{base_code_refactor_instructions}" ++ body
             ++ "{final_code_refactor_instructions}" ++ tail
         /\ py_format body [] = Ok body'
         /\ py_format tail [] = Ok tail'.

(** * Properties *)

Ltac solve_enables :=
  eexists; split;
  [ reflexivity
  | let s := fresh "s" in
    let d := fresh "d" in
    let Hin := fresh "Hin" in
    intros s d Hin; cbn [In template_checks] in Hin;
    repeat (destruct Hin as [Hin | Hin];
            [ inversion Hin; subst; eexists; split; reflexivity | ]);
    contradiction ].


(** ** Texts *)

Lemma prefix_append (s t : string) : prefix s (s ++ t) = true.
Proof.
  induction s as [|c s IH]; simpl.
  - now destruct t.
  - destruct (ascii_dec c c) as [_|ne]; [exact IH | now elim ne].
Qed.

Lemma contains_unfold (s hay : string) :
  contains s hay =
    if prefix s hay then true
    else match hay with
         | EmptyString => false
         | String _ hay' => contains s hay'
         end.
Proof. destruct hay; reflexivity. Qed.

Lemma contains_prefix (s t : string) : contains s (s ++ t) = true.
Proof. rewrite contains_unfold, prefix_append. reflexivity. Qed.

Lemma contains_append (before s after : string) :
  contains s (before ++ s ++ after) = true.
Proof.
  induction before as [|c before IH].
  - change (contains s (s ++ after) = true). apply contains_prefix.
  - rewrite contains_unfold. cbn [append].
    destruct (prefix s (String c (before ++ s ++ after))); [reflexivity | exact IH].
Qed.

Lemma append_nil_r (s : string) : s ++ EmptyString = s.
Proof. induction s as [|c s IH]; cbn; [reflexivity | now rewrite IH]. Qed.

Lemma append_assoc (a b c : string) : (a ++ b) ++ c = a ++ b ++ c.
Proof. induction a as [|x a IH]; cbn; [reflexivity | now rewrite IH]. Qed.

Lemma too_large_message_names_count (n : Z) :
  contains (py_int_str n) (too_large_message n) = true.
Proof. unfold too_large_message. apply contains_append. Qed.

(** ** The active templates *)

Section Templates.

Variable self : CodeRefactorTool.

Lemma active_templates_filter (settings : pyval) (enabled : string -> bool)
  (checks : list (string * string)) :
  (forall setting description,
      In (setting, description) checks ->
      exists value,
        setting_value settings ("enable_" ++ setting) = Ok value /\
        py_truthy value = enabled setting) ->
  active_templates settings checks =
    Ok (map template_of (filter (fun row => enabled (fst row)) checks)).
Proof.
  induction checks as [|[setting description] rest IH]; intros H.
  - reflexivity.
  - destruct (H setting description (or_introl eq_refl)) as (value & Hv & Ht).
    cbn [active_templates]. rewrite Hv. cbn [bindR].
    rewrite IH by (intros s d Hin; apply (H s d); now right).
    cbn [bindR filter fst]. rewrite Ht.
    destruct (enabled setting); reflexivity.
Qed.

Lemma enables_selected (tool_name : string) (enabled : string -> bool) :
  enables self tool_name enabled ->
  get_active_code_refactor_templates self tool_name =
    Ok (selected_templates enabled).
Proof.
  intros (settings & Hs & H). unfold get_active_code_refactor_templates.
  rewrite Hs. cbn [bindR]. now apply active_templates_filter.
Qed.

End Templates.

(** C5.  The templates a configuration selects are the rows of
    [template_checks], in the order Security, Performance, Memory,
    Correctness, Maintainability, Reliability, kept when their setting is
    enabled; two configurations that enable the same concerns, however they
    are built, select the same sequence. *)
Theorem active_templates_canonical_order
  (self1 self2 : CodeRefactorTool) (tool1 tool2 : string)
  (enabled : string -> bool) :
  enables self1 tool1 enabled ->
  enables self2 tool2 enabled ->
  get_active_code_refactor_templates self1 tool1 =
    Ok (selected_templates enabled)
  /\ get_active_code_refactor_templates self2 tool2 =
       get_active_code_refactor_templates self1 tool1
  /\ map description (selected_templates enabled) =
       filter (fun concern =>
                 enabled (py_lower concern ++ "_code_refactor"))
         [ "Security"; "Performance"; "Memory"; "Correctness";
           "Maintainability"; "Reliability" ].
Proof.
  intros H1 H2.
  rewrite (enables_selected self1 tool1 enabled H1).
  rewrite (enables_selected self2 tool2 enabled H2).
  repeat split.
  unfold selected_templates, template_checks. cbn [filter fst map py_lower].
  change (py_lower "Security" ++ "_code_refactor") with "security_code_refactor".
  change (py_lower "Performance" ++ "_code_refactor") with "performance_code_refactor".
  change (py_lower "Memory" ++ "_code_refactor") with "memory_code_refactor".
  change (py_lower "Correctness" ++ "_code_refactor") with "correctness_code_refactor".
  change (py_lower "Maintainability" ++ "_code_refactor")
    with "maintainability_code_refactor".
  change (py_lower "Reliability" ++ "_code_refactor") with "reliability_code_refactor".
  destruct (enabled "security_code_refactor"),
    (enabled "performance_code_refactor"),
    (enabled "memory_code_refactor"),
    (enabled "correctness_code_refactor"),
    (enabled "maintainability_code_refactor"),
    (enabled "reliability_code_refactor"); reflexivity.
Qed.

Lemma active_templates_canonical_order_witness :
  enables (Demo.tool (Demo.settings true true 10 false) [] "a=1")
    Demo.from_url Demo.first_two
  /\ enables (Demo.tool Demo.settings_other_order [] "a=1")
       Demo.from_file_id Demo.first_two
  /\ get_active_code_refactor_templates
       (Demo.tool Demo.settings_other_order [] "a=1") Demo.from_file_id =
     get_active_code_refactor_templates
       (Demo.tool (Demo.settings true true 10 false) [] "a=1") Demo.from_url.
Proof.
  assert (H1 : enables (Demo.tool (Demo.settings true true 10 false) [] "a=1")
                 Demo.from_url Demo.first_two) by solve_enables.
  assert (H2 : enables (Demo.tool Demo.settings_other_order [] "a=1")
                 Demo.from_file_id Demo.first_two) by solve_enables.
  split; [exact H1 | split; [exact H2 | ]].
  exact (proj1 (proj2 (active_templates_canonical_order _ _ _ _ _ H1 H2))).
Defined.

(** ** A run without an enabled concern *)

(** C6.  When no concern is enabled, [_run_code_refactors] raises its
    no-active-templates exception and sends nothing to the model; so does
    the whole of [_conduct_code_refactor] on any text, once its base
    instructions are formatted. *)
Theorem no_enabled_concern_raises_before_any_call
  (self : CodeRefactorTool) (tool_name : string)
  (code additional_instructions metadata : pyval) (base : string)
  (sent : list string) :
  enables self tool_name (fun _ => false) ->
  _run_code_refactors self code base tool_name additional_instructions
    metadata sent = (sent, Raise (Exception no_active_templates))
  /\ forall text,
       py_format
         (get_prompt self "code_refactor" "BASE_CODE_REFACTOR_INSTRUCTIONS_TEMPLATE")
         [ ("format_instructions",
            PStr (get_prompt self "code_refactor" "CODE_REFACTOR_FORMAT_TEMPLATE")) ]
       = Ok base ->
       _conduct_code_refactor self (PStr text) tool_name
         additional_instructions metadata sent
       = (sent, Raise (Exception no_active_templates)).
Proof.
  intros H.
  assert (R : forall code',
             _run_code_refactors self code' base tool_name
               additional_instructions metadata sent
             = (sent, Raise (Exception no_active_templates))).
  { intros code'. unfold _run_code_refactors, bindM, liftM.
    rewrite (enables_selected self tool_name _ H). reflexivity. }
  split; [apply R | ].
  intros text Hbase. unfold _conduct_code_refactor, bindM, liftM.
  cbn [code_with_line_numbers]. rewrite Hbase. apply R.
Qed.

Lemma no_enabled_concern_raises_before_any_call_witness :
  enables (Demo.tool (Demo.settings false false 10 true) [Demo.spaced] "a=1")
    Demo.from_file_id (fun _ => false)
  /\ _run_code_refactors
       (Demo.tool (Demo.settings false false 10 true) [Demo.spaced] "a=1")
       (PStr "a=1") "base" Demo.from_file_id PNone Demo.a_py []
     = ([], Raise (Exception no_active_templates)).
Proof.
  assert (H : enables
                (Demo.tool (Demo.settings false false 10 true) [Demo.spaced] "a=1")
                Demo.from_file_id (fun _ => false)) by solve_enables.
  split; [exact H | ].
  exact (proj1 (no_enabled_concern_raises_before_any_call _ _ (PStr "a=1")
                  PNone Demo.a_py "base" [] H)).
Defined.

(** ** The readable rendering *)

(** C10.  [format_refactor_results] labels the report with
    [metadata["url"]] when the metadata has that key, also when it has a
    ["filename"] beside it, and with [metadata["filename"]] otherwise: the
    text it returns is the layout below, whose [File] line shows that
    label.  It raises a [KeyError] instead of returning a text when the
    metadata has neither key. *)
Theorem format_refactor_results_label
  (language code : pyval) (metadata : list (string * pyval))
  (thoughts : list pyval) :
  let report := compile_results language (PDict metadata) thoughts code in
  let rendered blocks label :=
    "## Code Refactor" ++ nl
    ++ "- Language: **" ++ py_str language ++ "**" ++ nl
    ++ "- File: **" ++ py_str label ++ "**" ++ nl
    ++ nl
    ++ join (nl ++ nl) blocks ++ nl
    ++ nl
    ++ "### Refactored Code" ++ nl
    ++ "```" ++ py_str language ++ nl
    ++ py_str code ++ nl
    ++ "```" ++ nl in
  (forall blocks url,
      mapR thought_block thoughts = Ok blocks ->
      dict_get "url" metadata = Some url ->
      format_refactor_results report = Ok (rendered blocks url)
      /\ contains ("- File: **" ++ py_str url ++ "**" ++ nl)
           (rendered blocks url) = true)
  /\ (forall blocks filename,
         mapR thought_block thoughts = Ok blocks ->
         dict_get "url" metadata = None ->
         dict_get "filename" metadata = Some filename ->
         format_refactor_results report = Ok (rendered blocks filename)
         /\ contains ("- File: **" ++ py_str filename ++ "**" ++ nl)
              (rendered blocks filename) = true)
  /\ (dict_get "url" metadata = None ->
      dict_get "filename" metadata = None ->
      (exists e, format_refactor_results report = Raise e)
      /\ forall blocks,
           mapR thought_block thoughts = Ok blocks ->
           format_refactor_results report = Raise (KeyError "filename")).
Proof.
  intros report rendered.
  assert (unfolded :
    format_refactor_results report =
      (blocks <- mapR thought_block thoughts ;;
       filename_or_url <-
         (if dict_has "url" metadata then py_getitem (PDict metadata) "url"
          else py_getitem (PDict metadata) "filename") ;;
       Ok (rendered blocks filename_or_url))).
  { unfold format_refactor_results, report, compile_results, rendered,
      formatted_results.
    cbn. destruct (mapR thought_block thoughts); cbn; [ | reflexivity].
    destruct (dict_has "url" metadata); cbn;
      match goal with |- context [dict_get ?k metadata] =>
        destruct (dict_get k metadata) end; reflexivity. }
  assert (shown : forall blocks label,
             contains ("- File: **" ++ py_str label ++ "**" ++ nl)
               (rendered blocks label) = true).
  { intros blocks label. unfold rendered.
    replace ("## Code Refactor" ++ nl
             ++ "- Language: **" ++ py_str language ++ "**" ++ nl
             ++ "- File: **" ++ py_str label ++ "**" ++ nl
             ++ nl
             ++ join (nl ++ nl) blocks ++ nl
             ++ nl
             ++ "### Refactored Code" ++ nl
             ++ "```" ++ py_str language ++ nl
             ++ py_str code ++ nl
             ++ "```" ++ nl)
      with (("## Code Refactor" ++ nl
             ++ "- Language: **" ++ py_str language ++ "**" ++ nl)
            ++ ("- File: **" ++ py_str label ++ "**" ++ nl)
            ++ (nl
                ++ join (nl ++ nl) blocks ++ nl
                ++ nl
                ++ "### Refactored Code" ++ nl
                ++ "```" ++ py_str language ++ nl
                ++ py_str code ++ nl
                ++ "```" ++ nl))
      by (now rewrite !append_assoc).
    apply contains_append. }
  rewrite unfolded. split; [ | split; [ | intros Hu Hf; split]].
  - intros blocks url Hb Hu. split; [ | apply shown].
    rewrite Hb. unfold dict_has. cbn. rewrite Hu. reflexivity.
  - intros blocks filename Hb Hu Hf. split; [ | apply shown].
    rewrite Hb. unfold dict_has. cbn. rewrite Hu, Hf. reflexivity.
  - destruct (mapR thought_block thoughts) as [blocks|e]; cbn.
    + exists (KeyError "filename"). unfold dict_has. rewrite Hu, Hf. reflexivity.
    + now exists e.
  - intros blocks Hb. rewrite Hb. unfold dict_has. cbn. rewrite Hu, Hf.
    reflexivity.
Qed.

Lemma format_refactor_results_label_witness :
  (dict_get "url" [ ("filename", PStr "a.py");
                    ("url", PStr "https://github.com/o/r/blob/main/a.py") ]
   = Some (PStr "https://github.com/o/r/blob/main/a.py")
   /\ exists text,
        format_refactor_results
          (compile_results (PStr "python")
             (PDict [ ("filename", PStr "a.py");
                      ("url", PStr "https://github.com/o/r/blob/main/a.py") ])
             [PDict [ ("refactor_type", PStr "Security");
                      ("thoughts", PStr "Nothing to change.") ]]
             (PStr "a=1"))
        = Ok text
        /\ contains ("- File: **https://github.com/o/r/blob/main/a.py**" ++ nl)
             text = true)
  /\ (dict_get "url" [("filename", PStr "a.py")] = None
      /\ dict_get "filename" [("filename", PStr "a.py")] = Some (PStr "a.py")
      /\ exists text,
           format_refactor_results
             (compile_results (PStr "python") (PDict [("filename", PStr "a.py")])
                [PDict [ ("refactor_type", PStr "Security");
                         ("thoughts", PStr "Nothing to change.") ]]
                (PStr "a=1"))
           = Ok text
           /\ contains ("- File: **a.py**" ++ nl) text = true)
  /\ (dict_get "url" [] = None
      /\ dict_get "filename" [] = None
      /\ format_refactor_results
           (compile_results (PStr "python") (PDict [])
              [PDict [ ("refactor_type", PStr "Security");
                       ("thoughts", PStr "Nothing to change.") ]]
              (PStr "a=1"))
         = Raise (KeyError "filename")).
Proof.
  split; [ | split].
  - split; [reflexivity | ].
    destruct (format_refactor_results_label (PStr "python") (PStr "a=1")
                [ ("filename", PStr "a.py");
                  ("url", PStr "https://github.com/o/r/blob/main/a.py") ]
                [PDict [ ("refactor_type", PStr "Security");
                         ("thoughts", PStr "Nothing to change.") ]])
      as (with_url & _ & _).
    destruct (with_url [ "#### **Security**" ++ nl ++ "- Nothing to change." ]
                (PStr "https://github.com/o/r/blob/main/a.py")
                eq_refl eq_refl) as [returned shown].
    eexists. split; [exact returned | exact shown].
  - split; [reflexivity | split; [reflexivity | ]].
    destruct (format_refactor_results_label (PStr "python") (PStr "a=1")
                [("filename", PStr "a.py")]
                [PDict [ ("refactor_type", PStr "Security");
                         ("thoughts", PStr "Nothing to change.") ]])
      as (_ & with_filename & _).
    destruct (with_filename
                [ "#### **Security**" ++ nl ++ "- Nothing to change." ]
                (PStr "a.py") eq_refl eq_refl eq_refl) as [returned shown].
    eexists. split; [exact returned | exact shown].
  - split; [reflexivity | split; [reflexivity | ]].
    destruct (format_refactor_results_label (PStr "python") (PStr "a=1") []
                [PDict [ ("refactor_type", PStr "Security");
                         ("thoughts", PStr "Nothing to change.") ]])
      as (_ & _ & no_label).
    destruct (no_label eq_refl eq_refl) as [_ raises].
    apply (raises [ "#### **Security**" ++ nl ++ "- Nothing to change." ]).
    reflexivity.
Defined.

(** ** The rendering asked for as JSON *)

(** C7.  With [json_output] on, the run of the Security pass over [a=1]
    returns the [repr] of the Python dictionary between the fences of a
    [json] block: its keys and its texts stand in single quotes, and the
    result holds no double quote at all. *)
Theorem json_output_is_the_repr_of_a_dict :
  snd (conduct_code_refactor_from_file_id Demo.one_pass_json 7 PNone [])
  = Ok (PStr ("```json" ++ nl
              ++ "{'language': 'python', 'metadata': {'filename': 'a.py'}, "
              ++ "'refactor_thoughts': [{'refactor_type': 'Security', "
              ++ "'thoughts': 'Spaced the assignment.'}], "
              ++ "'refactored_code': 'a = 1  # spaced'}" ++ nl ++ "```"))
  /\ (exists text,
        snd (conduct_code_refactor_from_file_id Demo.one_pass_json 7 PNone [])
        = Ok (PStr text)
        /\ has_char 34 text = false).
Proof.
  split.
  - vm_compute. reflexivity.
  - eexists. split; vm_compute; reflexivity.
Qed.

(** ** The size check *)

(** C2, as the code has it.  A run started from a URL whose file counts
    more tokens than [max_code_size_tokens] allows returns the too-large
    message before anything is sent to the model; the message names the
    token count of the file. *)
Theorem oversized_file_from_url_is_refused
  (self : CodeRefactorTool) (file_info file_data metadata : pyval)
  (target_url : string) (additional_instructions : pyval)
  (code_file_token_count max_token_count : Z) (sent : list string) :
  pop_file_content file_info = Ok (file_data, metadata) ->
  num_tokens_from_string self file_data = Ok code_file_token_count ->
  get_max_code_refactor_token_count self "conduct_code_refactor_from_url"
    = Ok (PInt max_token_count) ->
  (max_token_count < code_file_token_count)%Z ->
  _refactor_file_from_url self file_info target_url additional_instructions
    sent = (sent, Ok (PStr (too_large_message code_file_token_count)))
  /\ contains (py_int_str code_file_token_count)
       (too_large_message code_file_token_count) = true.
Proof.
  intros Hpop Hcount Hmax Hlt. split; [ | apply too_large_message_names_count].
  unfold _refactor_file_from_url, bindM, liftM. rewrite Hpop, Hcount, Hmax.
  cbn [py_int_gt]. apply Z.ltb_lt in Hlt. rewrite Hlt. reflexivity.
Qed.

Lemma oversized_file_from_url_is_refused_witness :
  pop_file_content
    (PDict [("url", PStr "https://github.com/o/r/blob/main/a.py");
            ("file_content", PStr Demo.fifty)])
  = Ok (PStr Demo.fifty,
        PDict [("url", PStr "https://github.com/o/r/blob/main/a.py")])
  /\ num_tokens_from_string Demo.over_budget (PStr Demo.fifty) = Ok 50%Z
  /\ get_max_code_refactor_token_count Demo.over_budget
       "conduct_code_refactor_from_url" = Ok (PInt 10)
  /\ (10 < 50)%Z
  /\ _refactor_file_from_url Demo.over_budget
       (PDict [("url", PStr "https://github.com/o/r/blob/main/a.py");
               ("file_content", PStr Demo.fifty)])
       "https://github.com/o/r/blob/main/a.py" PNone []
     = ([], Ok (PStr (too_large_message 50))).
Proof.
  split; [reflexivity | split; [reflexivity | split; [reflexivity | split; [lia | ]]]].
  apply (oversized_file_from_url_is_refused Demo.over_budget _ (PStr Demo.fifty)
           (PDict [("url", PStr "https://github.com/o/r/blob/main/a.py")])
           _ PNone 50 10 []); [reflexivity | reflexivity | reflexivity | lia].
Defined.

(** C2 as the claim states it fails twice.  From a URL, the message for a
    file of 50 tokens under a maximum of 10 names 50 and nowhere 10.  From a
    file id, the same file under the same maximum is sent to the model. *)
Lemma budget_guard_counterexample :
  (exists message,
      conduct_code_refactor_from_url Demo.over_budget
        "https://github.com/o/r/blob/main/a.py" PNone []
      = ([], Ok (PStr message))
      /\ contains "50" message = true
      /\ contains "10" message = false)
  /\ num_tokens_from_string Demo.over_budget (PStr Demo.fifty) = Ok 50%Z
  /\ get_file_data Demo.over_budget 7 = Ok Demo.fifty
  /\ get_max_code_refactor_token_count Demo.over_budget
       "conduct_code_refactor_from_file_id" = Ok (PInt 10)
  /\ length (fst (conduct_code_refactor_from_file_id Demo.over_budget 7 PNone []))
     = 1.
Proof.
  split.
  - eexists. split; [vm_compute; reflexivity | split; vm_compute; reflexivity].
  - repeat split; vm_compute; reflexivity.
Qed.

(** ** The loop of [_run_code_refactors] *)

Lemma use_reply_fed (t : template) (reply code data : pyval) :
  use_reply t reply = Ok (Fed code data) ->
  py_contains "final_answer" reply = Ok false
  /\ py_getitem reply "refactored_code" = Ok code
  /\ py_setitem reply "refactor_type" (PStr (description t)) = Ok data.
Proof.
  unfold use_reply.
  destruct (py_contains "final_answer" reply) as [[|]|e]; cbn [bindR];
    try discriminate.
  - destruct (py_getitem reply "final_answer"); discriminate.
  - destruct (py_getitem reply "refactored_code") as [c|]; cbn [bindR];
      try discriminate.
    destruct (py_setitem reply "refactor_type" (PStr (description t)))
      as [d|]; cbn [bindR]; try discriminate.
    intros H. injection H as <- <-. repeat split.
Qed.

Lemma use_reply_answer (t : template) (reply : list (string * pyval))
  (answer : pyval) :
  dict_get "final_answer" reply = Some answer ->
  use_reply t (PDict reply) = Ok (Returned answer).
Proof.
  intros H. unfold use_reply, py_contains, py_getitem, dict_has.
  rewrite H. reflexivity.
Qed.


Lemma dict_get_set_other (k k' : string) (v : pyval)
  (d : list (string * pyval)) :
  k <> k' -> dict_get k' (dict_set k v d) = dict_get k' d.
Proof.
  intros ne. induction d as [|[k0 v0] d IH]; cbn [dict_set dict_get].
  - destruct (String.eqb_spec k k'); [contradiction | reflexivity].
  - destruct (String.eqb_spec k0 k) as [->|]; cbn [dict_get].
    + destruct (String.eqb_spec k k'); [contradiction | reflexivity].
    + now rewrite IH.
Qed.

Lemma py_getitem_after_setitem (reply data x : pyval) (k k' : string) :
  k <> k' ->
  py_setitem reply k x = Ok data ->
  py_getitem data k' = py_getitem reply k'.
Proof.
  intros ne. destruct reply; cbn [py_setitem]; try discriminate.
  intros H. injection H as <-. cbn [py_getitem].
  now rewrite dict_get_set_other.
Qed.

Section Loop.

Variable self : CodeRefactorTool.
Variable base : string.
Variables additional_instructions metadata : pyval.

Let prompt_of (t : template) (code : pyval) : result string :=
  code_refactor_prompt self (name t) base code metadata
    additional_instructions.

Let loop (templates : list template) (code : pyval) (data : option pyval)
  (refactor_results : list pyval) : M loop_outcome :=
  refactor_loop self templates code data refactor_results base
    additional_instructions metadata.

Lemma refactor_pass_sends (t : template) (code : pyval)
  (sent : list string) (prompt : string) :
  prompt_of t code = Ok prompt ->
  refactor_pass self t code base additional_instructions metadata sent =
    ((sent ++ [prompt])%list,
     reply <- parse_json self (predict self (length sent) prompt) ;;
     use_reply t reply).
Proof.
  unfold prompt_of. intros H.
  unfold refactor_pass, bindM, liftM, llm_predict. rewrite H.
  destruct (parse_json self (predict self (length sent) prompt)); reflexivity.
Qed.

Lemma refactor_pass_unsent (t : template) (code : pyval)
  (sent : list string) (e : exn) :
  prompt_of t code = Raise e ->
  refactor_pass self t code base additional_instructions metadata sent =
    (sent, Raise e).
Proof.
  unfold prompt_of. intros H. unfold refactor_pass, bindM, liftM.
  rewrite H. reflexivity.
Qed.

(** The loop over [pre ++ post] is the loop over [pre] followed, when it
    runs to its end, by the loop over [post]. *)
Lemma refactor_loop_app (pre post : list template) :
  forall code data refactor_results sent,
    loop (pre ++ post)%list code data refactor_results sent =
      match loop pre code data refactor_results sent with
      | (sent', Ok (Finished code' data' refactor_results')) =>
          loop post code' data' refactor_results' sent'
      | stopped => stopped
      end.
Proof.
  unfold loop.
  induction pre as [|t pre IH]; intros code data refactor_results sent.
  - reflexivity.
  - cbn [app refactor_loop]. unfold bindM.
    destruct (refactor_pass self t code base additional_instructions
                metadata sent) as [sent1 [[answer|code1 data1]|e]].
    + reflexivity.
    + apply IH.
    + reflexivity.
Qed.

(** Whatever the loop ends in, the prompts it has sent are chained. *)
Lemma refactor_loop_chained (templates : list template) :
  forall code data refactor_results sent,
  exists prompts,
    fst (loop templates code data refactor_results sent)
      = (sent ++ prompts)%list
    /\ chained self base additional_instructions metadata templates code
         (length sent) prompts.
Proof.
  unfold loop.
  induction templates as [|t templates IH];
    intros code data refactor_results sent.
  - exists []. cbn. now rewrite app_nil_r.
  - cbn [refactor_loop]. unfold bindM.
    destruct (prompt_of t code) as [prompt|e] eqn:Hp.
    + rewrite (refactor_pass_sends _ _ _ _ Hp).
      destruct (parse_json self (predict self (length sent) prompt))
        as [reply|e] eqn:Hr; cbn [bindR].
      * destruct (use_reply t reply) as [[answer|code1 data1]|e] eqn:Hu.
        -- exists [prompt]. cbn. split; [reflexivity | split; [exact Hp | now left]].
        -- destruct (IH code1 (Some data1) (refactor_results ++ [data1])%list
                       (sent ++ [prompt])%list) as (prompts & Hs & Hc).
           exists (prompt :: prompts). split.
           ++ rewrite Hs, <- app_assoc. reflexivity.
           ++ cbn [chained]. split; [exact Hp | right].
              destruct (use_reply_fed _ _ _ _ Hu) as (Hf & Hg & _).
              exists reply, code1. repeat split; try assumption.
              rewrite length_app, Nat.add_1_r in Hc. exact Hc.
        -- exists [prompt]. cbn. split; [reflexivity | split; [exact Hp | now left]].
      * exists [prompt]. cbn. split; [reflexivity | split; [exact Hp | now left]].
    + rewrite (refactor_pass_unsent _ _ _ _ Hp).
      exists []. cbn. now rewrite app_nil_r.
Qed.

Lemma chained_first (templates : list template) (code : pyval) (n : nat)
  (prompts : list string) (prompt : string) :
  chained self base additional_instructions metadata templates code n prompts ->
  nth_error prompts 0 = Some prompt ->
  exists t, nth_error templates 0 = Some t /\ prompt_of t code = Ok prompt.
Proof.
  destruct prompts as [|p prompts]; [discriminate | ].
  destruct templates as [|t templates]; cbn; [contradiction | ].
  intros [Hp _] H. injection H as <-. now exists t.
Qed.

Lemma chained_next (prompts : list string) :
  forall templates code n i p q,
    chained self base additional_instructions metadata templates code n prompts ->
    nth_error prompts i = Some p ->
    nth_error prompts (S i) = Some q ->
    exists t reply code',
      nth_error templates (S i) = Some t
      /\ parse_json self (predict self (n + i) p) = Ok reply
      /\ py_contains "final_answer" reply = Ok false
      /\ py_getitem reply "refactored_code" = Ok code'
      /\ prompt_of t code' = Ok q.
Proof.
  induction prompts as [|p0 prompts IH]; intros templates code n i p q Hc Hp Hq.
  - destruct i; discriminate.
  - destruct templates as [|t0 templates]; cbn [chained] in Hc; [contradiction | ].
    destruct Hc as [_ [-> | (reply & code' & Hr & Hf & Hg & Hc)]].
    { destruct i; discriminate. }
    destruct i as [|i].
    + cbn in Hp. injection Hp as <-.
      destruct (chained_first _ _ _ _ _ Hc Hq) as (t & Ht & Hpq).
      exists t, reply, code'. rewrite Nat.add_0_r. now repeat split.
    + destruct (IH templates code' (S n) i p q Hc Hp Hq)
        as (t & reply' & code'' & Ht & Hr' & Hf' & Hg' & Hpq).
      exists t, reply', code''. rewrite Nat.add_succ_r. now repeat split.
Qed.

Lemma chained_built (templates : list template) :
  forall code n prompts,
    chained self base additional_instructions metadata templates code n prompts ->
    Forall (fun prompt =>
              exists t code', In t templates /\ prompt_of t code' = Ok prompt)
      prompts.
Proof.
  induction templates as [|t templates IH]; intros code n prompts Hc.
  - destruct prompts; [constructor | contradiction].
  - destruct prompts as [|p prompts]; [constructor | ].
    cbn [chained] in Hc. destruct Hc as [Hp Hrest]. constructor.
    + exists t, code. split; [now left | exact Hp].
    + destruct Hrest as [-> | (reply & code' & _ & _ & _ & Hc)]; [constructor | ].
      eapply Forall_impl; [ | exact (IH _ _ _ Hc)].
      intros prompt (t' & c & Hin & H). exists t', c. split; [now right | exact H].
Qed.

(** The last turn of a loop that ran to its end. *)
Lemma refactor_loop_last (pre : list template) (t : template)
  (code0 : pyval) (data0 : option pyval) (results0 : list pyval)
  (sent sent' : list string) (code : pyval) (data : option pyval)
  (refactor_results : list pyval) :
  loop (pre ++ [t])%list code0 data0 results0 sent
    = (sent', Ok (Finished code data refactor_results)) ->
  exists sent1 code1 data1 results1 prompt reply data',
    loop pre code0 data0 results0 sent
      = (sent1, Ok (Finished code1 data1 results1))
    /\ prompt_of t code1 = Ok prompt
    /\ sent' = (sent1 ++ [prompt])%list
    /\ parse_json self (predict self (length sent1) prompt) = Ok reply
    /\ use_reply t reply = Ok (Fed code data')
    /\ data = Some data'
    /\ refactor_results = (results1 ++ [data'])%list.
Proof.
  rewrite refactor_loop_app.
  destruct (loop pre code0 data0 results0 sent)
    as [sent1 [[answer|code1 data1 results1]|e]]; try discriminate.
  unfold loop. cbn [refactor_loop]. unfold bindM.
  destruct (prompt_of t code1) as [prompt|e] eqn:Hp.
  - rewrite (refactor_pass_sends _ _ _ _ Hp).
    destruct (parse_json self (predict self (length sent1) prompt))
      as [reply|e] eqn:Hr; cbn [bindR]; try discriminate.
    destruct (use_reply t reply) as [[answer|code' data']|e] eqn:Hu;
      try discriminate.
    cbn [retM]. intros H. injection H as <- <- <- <-.
    exists sent1, code1, data1, results1, prompt, reply, data'.
    now repeat split.
  - rewrite (refactor_pass_unsent _ _ _ _ Hp). discriminate.
Qed.

End Loop.

(** ** Runs that stop inside the loop *)

Lemma run_with_templates (self : CodeRefactorTool) (tool_name : string)
  (templates : list template) (code : pyval) (base : string)
  (additional_instructions metadata : pyval) (sent : list string) :
  get_active_code_refactor_templates self tool_name = Ok templates ->
  templates <> [] ->
  _run_code_refactors self code base tool_name additional_instructions
    metadata sent =
    match refactor_loop self templates code None [] base
            additional_instructions metadata sent with
    | (sent', Ok (Answered answer)) => (sent', Ok answer)
    | (sent', Ok (Finished code' data refactor_results)) =>
        (sent', results <- final_results code' data refactor_results ;;
                render_results self tool_name results)
    | (sent', Raise e) => (sent', Raise e)
    end.
Proof.
  intros Ht Hne. unfold _run_code_refactors, bindM, liftM. rewrite Ht.
  destruct templates as [|t templates]; [now elim Hne | ].
  cbn [length Nat.eqb].
  destruct (refactor_loop self (t :: templates) code None [] base
              additional_instructions metadata sent)
    as [sent' [[answer|code' data refactor_results]|e]]; try reflexivity.
  destruct (final_results code' data refactor_results); reflexivity.
Qed.

(** The run when the passes of [pre] run to their end and the reply to the
    next pass makes [use_reply] stop with [stopped]. *)
Lemma run_stops_at_pass (self : CodeRefactorTool) (tool_name : string)
  (pre post : list template) (t : template) (code0 code : pyval)
  (base : string) (additional_instructions metadata : pyval)
  (sent sent1 : list string) (data : option pyval) (results : list pyval)
  (prompt : string) (reply : pyval) :
  get_active_code_refactor_templates self tool_name = Ok (pre ++ t :: post)%list ->
  refactor_loop self pre code0 None [] base additional_instructions metadata
    sent = (sent1, Ok (Finished code data results)) ->
  code_refactor_prompt self (name t) base code metadata additional_instructions
    = Ok prompt ->
  parse_json self (predict self (length sent1) prompt) = Ok reply ->
  (forall answer,
      use_reply t reply = Ok (Returned answer) ->
      _run_code_refactors self code0 base tool_name additional_instructions
        metadata sent = ((sent1 ++ [prompt])%list, Ok answer))
  /\ (forall e,
         use_reply t reply = Raise e ->
         _run_code_refactors self code0 base tool_name additional_instructions
           metadata sent = ((sent1 ++ [prompt])%list, Raise e)).
Proof.
  intros Ht Hpre Hp Hr.
  assert (Hne : (pre ++ t :: post)%list <> []) by (now destruct pre).
  rewrite (run_with_templates _ _ _ _ _ _ _ _ Ht Hne).
  rewrite refactor_loop_app, Hpre. cbn [refactor_loop]. unfold bindM.
  rewrite (refactor_pass_sends _ _ _ _ _ _ _ _ Hp), Hr. cbn [bindR].
  split; intros x Hu; rewrite Hu; reflexivity.
Qed.

(** C3.  When the reply to a pass holds a ["final_answer"], the run returns
    that answer as it is, a text when the answer is a text; nothing the
    earlier passes produced is in the result, and no later pass is run. *)
Theorem final_answer_is_returned_alone
  (self : CodeRefactorTool) (tool_name : string)
  (pre post : list template) (t : template) (code0 code : pyval)
  (base : string) (additional_instructions metadata : pyval)
  (sent sent1 : list string) (data : option pyval) (results : list pyval)
  (prompt : string) (reply : list (string * pyval)) (answer : pyval) :
  get_active_code_refactor_templates self tool_name = Ok (pre ++ t :: post)%list ->
  refactor_loop self pre code0 None [] base additional_instructions metadata
    sent = (sent1, Ok (Finished code data results)) ->
  code_refactor_prompt self (name t) base code metadata additional_instructions
    = Ok prompt ->
  parse_json self (predict self (length sent1) prompt) = Ok (PDict reply) ->
  dict_get "final_answer" reply = Some answer ->
  _run_code_refactors self code0 base tool_name additional_instructions
    metadata sent = ((sent1 ++ [prompt])%list, Ok answer).
Proof.
  intros Ht Hpre Hp Hr Ha.
  apply (proj1 (run_stops_at_pass _ _ _ _ _ _ _ _ _ _ _ _ _ _ _ _
                  Ht Hpre Hp Hr)).
  now apply use_reply_answer.
Qed.

Lemma final_answer_is_returned_alone_witness :
  get_active_code_refactor_templates Demo.second_refuses Demo.from_file_id
    = Ok ([Demo.security] ++ Demo.performance :: [])%list
  /\ refactor_loop Demo.second_refuses [Demo.security] Demo.numbered None []
       Demo.base PNone Demo.a_py []
     = ([Demo.first_prompt],
        Ok (Finished (PStr "a = 1  # spaced") (Some Demo.spaced_data)
              [Demo.spaced_data]))
  /\ code_refactor_prompt Demo.second_refuses (name Demo.performance)
       Demo.base (PStr "a = 1  # spaced") Demo.a_py PNone
     = Ok Demo.second_prompt
  /\ parse_json Demo.second_refuses
       (predict Demo.second_refuses (length [Demo.first_prompt])
          Demo.second_prompt)
     = Ok (PDict [("final_answer", PStr "I cannot return the full code.")])
  /\ dict_get "final_answer"
       [("final_answer", PStr "I cannot return the full code.")]
     = Some (PStr "I cannot return the full code.")
  /\ _run_code_refactors Demo.second_refuses Demo.numbered Demo.base
       Demo.from_file_id PNone Demo.a_py []
     = ([Demo.first_prompt; Demo.second_prompt],
        Ok (PStr "I cannot return the full code.")).
Proof.
  assert (H1 : get_active_code_refactor_templates Demo.second_refuses
                 Demo.from_file_id
               = Ok ([Demo.security] ++ Demo.performance :: [])%list)
    by (vm_compute; reflexivity).
  assert (H2 : refactor_loop Demo.second_refuses [Demo.security] Demo.numbered
                 None [] Demo.base PNone Demo.a_py []
               = ([Demo.first_prompt],
                  Ok (Finished (PStr "a = 1  # spaced") (Some Demo.spaced_data)
                        [Demo.spaced_data])))
    by (vm_compute; reflexivity).
  assert (H3 : code_refactor_prompt Demo.second_refuses (name Demo.performance)
                 Demo.base (PStr "a = 1  # spaced") Demo.a_py PNone
               = Ok Demo.second_prompt)
    by (vm_compute; reflexivity).
  assert (H4 : parse_json Demo.second_refuses
                 (predict Demo.second_refuses (length [Demo.first_prompt])
                    Demo.second_prompt)
               = Ok (PDict [("final_answer",
                             PStr "I cannot return the full code.")]))
    by (vm_compute; reflexivity).
  repeat (split; [assumption || reflexivity | ]).
  exact (final_answer_is_returned_alone _ _ _ _ _ _ _ _ _ _ _ _ _ _ _ _ _
           H1 H2 H3 H4 eq_refl).
Defined.

(** ** The metadata *)

Lemma final_results_metadata (code data report : pyval)
  (refactor_results : list pyval) :
  final_results code (Some data) refactor_results = Ok report ->
  py_getitem report "metadata" = py_getitem data "metadata".
Proof.
  unfold final_results.
  destruct (py_getitem data "metadata") as [m|]; cbn [bindR]; try discriminate.
  destruct (py_getitem data "language") as [l|]; cbn [bindR]; try discriminate.
  destruct (mapR thought_entry refactor_results) as [ths|]; cbn [bindR];
    try discriminate.
  intros H. injection H as <-. reflexivity.
Qed.

(** C8, as the code has it.  In a run that goes through all its passes,
    every prompt is built with the metadata the run was given, and the
    metadata of the report is the ["metadata"] of the decoded reply to the
    last prompt: it is the metadata of the file when that reply repeats
    it. *)
Theorem report_metadata_is_that_of_the_last_reply
  (self : CodeRefactorTool) (tool_name : string) (templates : list template)
  (code0 code data report : pyval) (base : string)
  (additional_instructions metadata : pyval) (sent sent' : list string)
  (refactor_results : list pyval) :
  get_active_code_refactor_templates self tool_name = Ok templates ->
  refactor_loop self templates code0 None [] base additional_instructions
    metadata sent = (sent', Ok (Finished code (Some data) refactor_results)) ->
  final_results code (Some data) refactor_results = Ok report ->
  _run_code_refactors self code0 base tool_name additional_instructions
    metadata sent = (sent', render_results self tool_name report)
  /\ (exists front prompt reply,
         sent' = (front ++ [prompt])%list
         /\ parse_json self (predict self (length front) prompt) = Ok reply
         /\ py_getitem report "metadata" = py_getitem reply "metadata"
         /\ (py_getitem reply "metadata" = Ok metadata ->
             py_getitem report "metadata" = Ok metadata))
  /\ (exists prompts,
         sent' = (sent ++ prompts)%list
         /\ Forall (fun prompt =>
                      exists t code',
                        In t templates
                        /\ code_refactor_prompt self (name t) base code'
                             metadata additional_instructions = Ok prompt)
              prompts).
Proof.
  intros Ht Hloop Hfinal.
  assert (Hne : templates <> []).
  { intros ->. cbn in Hloop. discriminate. }
  split; [ | split].
  - rewrite (run_with_templates _ _ _ _ _ _ _ _ Ht Hne), Hloop, Hfinal.
    reflexivity.
  - destruct (exists_last Hne) as (pre & t & ->).
    destruct (refactor_loop_last _ _ _ _ _ _ _ _ _ _ _ _ _ _ Hloop)
      as (sent1 & code1 & data1 & results1 & prompt & reply & data'
          & _ & _ & -> & Hr & Hu & Hd & _).
    injection Hd as <-.
    destruct (use_reply_fed _ _ _ _ Hu) as (_ & _ & Hset).
    assert (Hm : py_getitem report "metadata" = py_getitem reply "metadata").
    { rewrite (final_results_metadata _ _ _ _ Hfinal).
      eapply py_getitem_after_setitem; [ | exact Hset]. discriminate. }
    exists sent1, prompt, reply. repeat split; try assumption.
    intros He. now rewrite Hm.
  - destruct (refactor_loop_chained self base additional_instructions metadata
                templates code0 None [] sent) as (prompts & Hs & Hc).
    rewrite Hloop in Hs. cbn [fst] in Hs.
    exists prompts. split; [exact Hs | ].
    exact (chained_built _ _ _ _ _ _ _ _ Hc).
Qed.

Lemma report_metadata_is_that_of_the_last_reply_witness :
  get_active_code_refactor_templates Demo.two_passes Demo.from_file_id
    = Ok [Demo.security; Demo.performance]
  /\ refactor_loop Demo.two_passes [Demo.security; Demo.performance]
       Demo.numbered None [] Demo.base PNone Demo.a_py []
     = ([Demo.first_prompt; Demo.second_prompt],
        Ok (Finished (PStr "a = 1") (Some Demo.renamed_data)
              [Demo.spaced_data; Demo.renamed_data]))
  /\ final_results (PStr "a = 1") (Some Demo.renamed_data)
       [Demo.spaced_data; Demo.renamed_data]
     = Ok Demo.two_passes_report
  /\ _run_code_refactors Demo.two_passes Demo.numbered Demo.base
       Demo.from_file_id PNone Demo.a_py []
     = ([Demo.first_prompt; Demo.second_prompt],
        render_results Demo.two_passes Demo.from_file_id
          Demo.two_passes_report).
Proof.
  assert (H1 : get_active_code_refactor_templates Demo.two_passes
                 Demo.from_file_id
               = Ok [Demo.security; Demo.performance])
    by (vm_compute; reflexivity).
  assert (H2 : refactor_loop Demo.two_passes [Demo.security; Demo.performance]
                 Demo.numbered None [] Demo.base PNone Demo.a_py []
               = ([Demo.first_prompt; Demo.second_prompt],
                  Ok (Finished (PStr "a = 1") (Some Demo.renamed_data)
                        [Demo.spaced_data; Demo.renamed_data])))
    by (vm_compute; reflexivity).
  assert (H3 : final_results (PStr "a = 1") (Some Demo.renamed_data)
                 [Demo.spaced_data; Demo.renamed_data]
               = Ok Demo.two_passes_report)
    by (vm_compute; reflexivity).
  repeat (split; [assumption | ]).
  exact (proj1 (report_metadata_is_that_of_the_last_reply _ _ _ _ _ _ _ _ _ _
                  _ _ _ H1 H2 H3)).
Defined.

(** C8 as the claim states it fails.  The file is [a.py] and every prompt
    shows that name; the reply to the last pass says [b.py], and [b.py] is
    the metadata of the report and the label of the rendering. *)
Lemma report_metadata_counterexample :
  get_file Demo.two_passes 7 = Ok (mk_file_model 7 "Code" "a.py")
  /\ refactor_loop Demo.two_passes [Demo.security; Demo.performance]
       Demo.numbered None [] Demo.base PNone Demo.a_py []
     = ([Demo.first_prompt; Demo.second_prompt],
        Ok (Finished (PStr "a = 1") (Some Demo.renamed_data)
              [Demo.spaced_data; Demo.renamed_data]))
  /\ final_results (PStr "a = 1") (Some Demo.renamed_data)
       [Demo.spaced_data; Demo.renamed_data]
     = Ok Demo.two_passes_report
  /\ py_getitem Demo.two_passes_report "metadata"
     = Ok (PDict [("filename", PStr "b.py")])
  /\ py_getitem Demo.two_passes_report "metadata" <> Ok Demo.a_py
  /\ conduct_code_refactor_from_file_id Demo.two_passes 7 PNone []
     = ([Demo.first_prompt; Demo.second_prompt],
        render_results Demo.two_passes Demo.from_file_id
          Demo.two_passes_report)
  /\ (exists text,
         snd (conduct_code_refactor_from_file_id Demo.two_passes 7 PNone [])
         = Ok (PStr text)
         /\ contains "- File: **b.py**" text = true
         /\ contains "a.py" text = false).
Proof.
  repeat split; try (vm_compute; reflexivity).
  - vm_compute. discriminate.
  - eexists. repeat split; vm_compute; reflexivity.
Qed.

(** ** The code fed to each pass *)

Lemma run_prompts_chained (self : CodeRefactorTool) (code : pyval)
  (base tool_name : string) (additional_instructions metadata : pyval)
  (sent : list string) :
  exists templates prompts,
    fst (_run_code_refactors self code base tool_name additional_instructions
           metadata sent) = (sent ++ prompts)%list
    /\ chained self base additional_instructions metadata templates code
         (length sent) prompts
    /\ (prompts <> [] ->
        get_active_code_refactor_templates self tool_name = Ok templates).
Proof.
  destruct (get_active_code_refactor_templates self tool_name)
    as [templates|e] eqn:Ht.
  - destruct templates as [|t templates].
    + exists [], []. unfold _run_code_refactors, bindM, liftM. rewrite Ht.
      cbn. rewrite app_nil_r. split; [reflexivity | split; [exact I | ]].
      intros H. now elim H.
    + assert (Hne : t :: templates <> []) by discriminate.
      destruct (refactor_loop_chained self base additional_instructions
                  metadata (t :: templates) code None [] sent)
        as (prompts & Hs & Hc).
      exists (t :: templates), prompts. split; [ | now split].
      rewrite (run_with_templates _ _ _ _ _ _ _ _ Ht Hne).
      destruct (refactor_loop self (t :: templates) code None [] base
                  additional_instructions metadata sent)
        as [sent' [[answer|code' data results]|e]]; exact Hs.
  - exists [], []. unfold _run_code_refactors, bindM, liftM. rewrite Ht.
    cbn. rewrite app_nil_r. split; [reflexivity | split; [exact I | ]].
    intros H. now elim H.
Qed.

Lemma conduct_prompts_chained (self : CodeRefactorTool) (text : string)
  (tool_name : string) (additional_instructions metadata : pyval) :
  exists base templates,
    chained self base additional_instructions metadata templates
      (PList (map PStr (number_lines (splitlines text)))) 0
      (fst (_conduct_code_refactor self (PStr text) tool_name
              additional_instructions metadata []))
    /\ (fst (_conduct_code_refactor self (PStr text) tool_name
               additional_instructions metadata []) <> [] ->
        py_format
          (get_prompt self "code_refactor"
             "BASE_CODE_REFACTOR_INSTRUCTIONS_TEMPLATE")
          [ ("format_instructions",
             PStr (get_prompt self "code_refactor"
                     "CODE_REFACTOR_FORMAT_TEMPLATE")) ] = Ok base
        /\ get_active_code_refactor_templates self tool_name = Ok templates).
Proof.
  unfold _conduct_code_refactor, bindM, liftM. cbn [code_with_line_numbers].
  destruct (py_format _ _) as [base|e].
  - destruct (run_prompts_chained self
                (PList (map PStr (number_lines (splitlines text)))) base
                tool_name additional_instructions metadata [])
      as (templates & prompts & Hs & Hc & Ht).
    cbn [app length] in Hs, Hc. rewrite Hs.
    exists base, templates. split; [exact Hc | ].
    intros Hne. split; [reflexivity | now apply Ht].
  - exists EmptyString, []. cbn. split; [exact I | ]. intros H. now elim H.
Qed.

(** C1, as the code has it.  The prompt of the first pass is built from the
    lines of the file with their numbers in front; the prompt of every
    later pass is built from the ["refactored_code"] of the decoded reply
    to the prompt just before it, as it is. *)
Theorem each_pass_is_fed_the_code_of_the_pass_before
  (self : CodeRefactorTool) (text : string) (tool_name : string)
  (additional_instructions metadata : pyval) :
  exists base templates,
    (forall prompt,
        nth_error (fst (_conduct_code_refactor self (PStr text) tool_name
                          additional_instructions metadata [])) 0
        = Some prompt ->
        exists t,
          nth_error templates 0 = Some t
          /\ get_active_code_refactor_templates self tool_name = Ok templates
          /\ code_refactor_prompt self (name t) base
               (PList (map PStr (number_lines (splitlines text)))) metadata
               additional_instructions = Ok prompt)
    /\ (forall i p q,
           nth_error (fst (_conduct_code_refactor self (PStr text) tool_name
                             additional_instructions metadata [])) i
           = Some p ->
           nth_error (fst (_conduct_code_refactor self (PStr text) tool_name
                             additional_instructions metadata [])) (S i)
           = Some q ->
           exists t reply code,
             nth_error templates (S i) = Some t
             /\ parse_json self (predict self i p) = Ok reply
             /\ py_getitem reply "refactored_code" = Ok code
             /\ code_refactor_prompt self (name t) base code metadata
                  additional_instructions = Ok q).
Proof.
  destruct (conduct_prompts_chained self text tool_name
              additional_instructions metadata)
    as (base & templates & Hc & Hne).
  exists base, templates. split.
  - intros prompt Hp.
    destruct (chained_first _ _ _ _ _ _ _ _ _ Hc Hp) as (t & Ht & Hb).
    exists t. repeat split; try assumption.
    apply Hne. intros E. rewrite E in Hp. discriminate.
  - intros i p q Hp Hq.
    destruct (chained_next _ _ _ _ _ _ _ _ _ _ _ Hc Hp Hq)
      as (t & reply & code & Ht & Hr & _ & Hg & Hb).
    exists t, reply, code. now repeat split.
Qed.

Lemma each_pass_is_fed_the_code_of_the_pass_before_witness :
  nth_error (fst (_conduct_code_refactor Demo.two_passes (PStr "a=1")
                    Demo.from_file_id PNone Demo.a_py [])) 0
  = Some Demo.first_prompt
  /\ nth_error (fst (_conduct_code_refactor Demo.two_passes (PStr "a=1")
                       Demo.from_file_id PNone Demo.a_py [])) 1
     = Some Demo.second_prompt
  /\ exists base templates t reply code,
       nth_error templates 1 = Some t
       /\ parse_json Demo.two_passes
            (predict Demo.two_passes 0 Demo.first_prompt) = Ok reply
       /\ py_getitem reply "refactored_code" = Ok code
       /\ code_refactor_prompt Demo.two_passes (name t) base code Demo.a_py
            PNone = Ok Demo.second_prompt.
Proof.
  assert (H0 : nth_error
                 (fst (_conduct_code_refactor Demo.two_passes (PStr "a=1")
                         Demo.from_file_id PNone Demo.a_py [])) 0
               = Some Demo.first_prompt) by (vm_compute; reflexivity).
  assert (H1 : nth_error
                 (fst (_conduct_code_refactor Demo.two_passes (PStr "a=1")
                         Demo.from_file_id PNone Demo.a_py [])) 1
               = Some Demo.second_prompt) by (vm_compute; reflexivity).
  split; [exact H0 | split; [exact H1 | ]].
  destruct (each_pass_is_fed_the_code_of_the_pass_before Demo.two_passes "a=1"
              Demo.from_file_id PNone Demo.a_py)
    as (base & templates & _ & next).
  destruct (next 0 Demo.first_prompt Demo.second_prompt H0 H1)
    as (t & reply & code & Ht & Hr & Hg & Hb).
  exists base, templates, t, reply, code. repeat split; assumption.
Defined.

(** C1 as the claim states it fails at the first pass.  The file holds the
    text [a=1]; the first prompt shows the list of its numbered lines
    between the markers, not that text, and it is not the prompt the text
    itself would give. *)
Lemma first_pass_counterexample :
  get_file_data Demo.two_passes 7 = Ok "a=1"
  /\ exists sent_first from_text,
       nth_error (fst (conduct_code_refactor_from_file_id Demo.two_passes 7
                         PNone [])) 0 = Some sent_first
       /\ contains (Demo.between_markers "['1: a=1']") sent_first = true
       /\ contains (Demo.between_markers "a=1") sent_first = false
       /\ code_refactor_prompt Demo.two_passes (name Demo.security) Demo.base
            (PStr "a=1") Demo.a_py PNone = Ok from_text
       /\ String.eqb sent_first from_text = false.
Proof.
  split; [reflexivity | ].
  do 2 eexists. repeat split; vm_compute; reflexivity.
Qed.

(** ** The line numbers *)

Lemma number_lines_from_length (lines : list string) :
  forall start, length (number_lines_from start lines) = length lines.
Proof.
  induction lines as [|line lines IH]; intros start; cbn.
  - reflexivity.
  - now rewrite IH.
Qed.

Lemma number_lines_from_nth (lines : list string) :
  forall start j line,
    nth_error lines j = Some line ->
    nth_error (number_lines_from start lines) j
    = Some (py_int_str (Z.of_nat (start + j + 1)) ++ ": " ++ line).
Proof.
  induction lines as [|l lines IH]; intros start j line H.
  - destruct j; discriminate.
  - destruct j as [|j]; cbn in H |- *.
    + injection H as <-. now rewrite Nat.add_0_r.
    + rewrite (IH (S start) j line H).
      now replace (S start + j + 1) with (start + S j + 1) by lia.
Qed.

(** * Further properties of the code *)

(** ** Formatting *)

Lemma format_field_nil (field : string) :
  exists e, format_field [] field = Raise e.
Proof.
  unfold format_field. destruct (all_digits field); [now eexists | ].
  destruct (negb (plain_field field)); now eexists.
Qed.

(** [format_aux] looks one character ahead, so the induction goes over a
    text and the texts one character longer at once. *)
Lemma string_pair_ind (P : string -> Prop) :
  P EmptyString ->
  (forall c, P (String c EmptyString)) ->
  (forall c c' s, P s -> P (String c' s) -> P (String c (String c' s))) ->
  forall s, P s.
Proof.
  intros H0 H1 H2 s.
  assert (both : P s /\ forall c, P (String c s)).
  { induction s as [|c' s [IHs IHc]].
    - split; [exact H0 | exact H1].
    - split; [apply IHc | ]. intros c. apply H2; [exact IHs | apply IHc]. }
  exact (proj1 both).
Qed.

Lemma format_aux_step (kwargs : list (string * pyval)) (c : ascii)
  (t' : string) (field : option string) :
  format_aux kwargs (String c t') field =
    match field with
    | Some name =>
        if (nat_of_ascii c =? 125)%nat then
          v <- format_field kwargs name ;;
          rest <- format_aux kwargs t' None ;;
          Ok (v ++ rest)
        else format_aux kwargs t' (Some (name ++ String c EmptyString))
    | None =>
        if (nat_of_ascii c =? 123)%nat then
          match t' with
          | String c' t'' =>
              if (nat_of_ascii c' =? 123)%nat then
                rest <- format_aux kwargs t'' None ;;
                Ok (String c rest)
              else format_aux kwargs t' (Some EmptyString)
          | EmptyString => Raise ValueError
          end
        else if (nat_of_ascii c =? 125)%nat then
          match t' with
          | String c' t'' =>
              if (nat_of_ascii c' =? 125)%nat then
                rest <- format_aux kwargs t'' None ;;
                Ok (String c rest)
              else Raise ValueError
          | EmptyString => Raise ValueError
          end
        else
          rest <- format_aux kwargs t' None ;;
          Ok (String c rest)
    end.
Proof. reflexivity. Qed.

Lemma format_aux_step2 (kwargs : list (string * pyval)) (c c' : ascii)
  (t : string) (field : option string) :
  format_aux kwargs (String c (String c' t)) field =
    match field with
    | Some name =>
        if (nat_of_ascii c =? 125)%nat then
          v <- format_field kwargs name ;;
          rest <- format_aux kwargs (String c' t) None ;;
          Ok (v ++ rest)
        else format_aux kwargs (String c' t)
               (Some (name ++ String c EmptyString))
    | None =>
        if (nat_of_ascii c =? 123)%nat then
          if (nat_of_ascii c' =? 123)%nat then
            rest <- format_aux kwargs t None ;;
            Ok (String c rest)
          else format_aux kwargs (String c' t) (Some EmptyString)
        else if (nat_of_ascii c =? 125)%nat then
          if (nat_of_ascii c' =? 125)%nat then
            rest <- format_aux kwargs t None ;;
            Ok (String c rest)
          else Raise ValueError
        else
          rest <- format_aux kwargs (String c' t) None ;;
          Ok (String c rest)
    end.
Proof. reflexivity. Qed.

(** A template without replacement fields formats the same whatever the
    keywords. *)
Lemma format_aux_without_fields (kwargs : list (string * pyval)) (t : string) :
  forall field text,
    format_aux [] t field = Ok text -> format_aux kwargs t field = Ok text.
Proof.
  induction t as [|c|c c' t IHt IHc] using string_pair_ind; intros field text.
  - destruct field; [discriminate | trivial].
  - cbn. destruct field as [name|].
    + destruct (nat_of_ascii c =? 125)%nat; [ | discriminate].
      destruct (format_field_nil name) as (e & ->). discriminate.
    + destruct (nat_of_ascii c =? 123)%nat; [discriminate | ].
      destruct (nat_of_ascii c =? 125)%nat; [discriminate | trivial].
  - rewrite (format_aux_step2 [] c c' t), (format_aux_step2 kwargs c c' t).
    destruct field as [name|].
    + destruct (nat_of_ascii c =? 125)%nat.
      * destruct (format_field_nil name) as (e & ->). discriminate.
      * apply IHc.
    + destruct (nat_of_ascii c =? 123)%nat.
      * destruct (nat_of_ascii c' =? 123)%nat; [ | apply IHc].
        destruct (format_aux [] t None) as [rest|] eqn:E; [ | discriminate].
        now rewrite (IHt _ _ E).
      * destruct (nat_of_ascii c =? 125)%nat.
        -- destruct (nat_of_ascii c' =? 125)%nat; [ | discriminate].
           destruct (format_aux [] t None) as [rest|] eqn:E; [ | discriminate].
           now rewrite (IHt _ _ E).
        -- destruct (format_aux [] (String c' t) None) as [rest|] eqn:E;
             [ | discriminate].
           now rewrite (IHc _ _ E).
Qed.

(** Formatting goes through a template piece by piece: behind a piece
    that formats to [text], the rest is formatted from a fresh start. *)
Lemma format_aux_app (kwargs : list (string * pyval)) (a b : string) :
  forall field text,
    format_aux kwargs a field = Ok text ->
    format_aux kwargs (a ++ b) field =
      (rest <- format_aux kwargs b None ;; Ok (text ++ rest)).
Proof.
  induction a as [|c|c c' a IHa IHc] using string_pair_ind; intros field text.
  - destruct field; [discriminate | ]. intros H. injection H as <-.
    cbn. now destruct (format_aux kwargs b None).
  - change (String c EmptyString ++ b) with (String c b).
    rewrite (format_aux_step kwargs c EmptyString), (format_aux_step kwargs c b).
    cbv beta iota. destruct field as [name|].
    + destruct (nat_of_ascii c =? 125)%nat; [ | discriminate].
      destruct (format_field kwargs name) as [v|]; [ | discriminate].
      cbn. intros H. injection H as <-.
      destruct (format_aux kwargs b None); cbn;
        [now rewrite append_nil_r | reflexivity].
    + destruct (nat_of_ascii c =? 123)%nat; [discriminate | ].
      destruct (nat_of_ascii c =? 125)%nat; [discriminate | ].
      cbn. intros H. injection H as <-.
      now destruct (format_aux kwargs b None).
  - change (String c (String c' a) ++ b) with (String c (String c' (a ++ b))).
    rewrite (format_aux_step2 kwargs c c' a),
      (format_aux_step2 kwargs c c' (a ++ b)).
    change (String c' (a ++ b)) with (String c' a ++ b).
    destruct field as [name|].
    + destruct (nat_of_ascii c =? 125)%nat.
      * destruct (format_field kwargs name) as [v|]; cbn [bindR];
          [ | discriminate].
        destruct (format_aux kwargs (String c' a) None) as [r|] eqn:E;
          cbn [bindR]; [ | discriminate].
        intros H. injection H as <-.
        rewrite (IHc _ _ E).
        destruct (format_aux kwargs b None); cbn;
          [now rewrite append_assoc | reflexivity].
      * intros H. now apply IHc.
    + destruct (nat_of_ascii c =? 123)%nat.
      * destruct (nat_of_ascii c' =? 123)%nat.
        -- destruct (format_aux kwargs a None) as [r|] eqn:E; cbn [bindR];
             [ | discriminate].
           intros H. injection H as <-. rewrite (IHa _ _ E).
           now destruct (format_aux kwargs b None).
        -- intros H. now apply IHc.
      * destruct (nat_of_ascii c =? 125)%nat.
        -- destruct (nat_of_ascii c' =? 125)%nat; [ | discriminate].
           destruct (format_aux kwargs a None) as [r|] eqn:E; cbn [bindR];
             [ | discriminate].
           intros H. injection H as <-. rewrite (IHa _ _ E).
           now destruct (format_aux kwargs b None).
        -- destruct (format_aux kwargs (String c' a) None) as [r|] eqn:E;
             cbn [bindR]; [ | discriminate].
           intros H. injection H as <-.
           rewrite (IHc _ _ E).
           now destruct (format_aux kwargs b None).
Qed.

Lemma py_format_app (kwargs : list (string * pyval)) (a b ra rb : string) :
  py_format a kwargs = Ok ra ->
  py_format b kwargs = Ok rb ->
  py_format (a ++ b) kwargs = Ok (ra ++ rb).
Proof.
  unfold py_format. intros Ha Hb. rewrite (format_aux_app _ _ _ _ _ Ha), Hb.
  reflexivity.
Qed.

(** ** The prompt of a pass *)

Lemma final_instructions_formatted (code_metadata code additional_instructions : pyval) :
  py_format Demo.FINAL_CODE_REFACTOR_INSTRUCTIONS
    [ ("code_summary", PStr EmptyString);
      ("code_dependencies", PStr EmptyString);
      ("code", code);
      ("code_metadata", code_metadata);
      ("additional_instructions", additional_instructions) ]
  = Ok (final_instructions code_metadata code additional_instructions).
Proof. cbv -[py_str]. reflexivity. Qed.

Lemma final_instructions_show_code (code_metadata code additional_instructions : pyval) :
  exists before behind,
    final_instructions code_metadata code additional_instructions
    = before ++ py_str code ++ behind.
Proof.
  exists (nl ++ "----- CODE METADATA -----" ++ nl
          ++ py_str code_metadata ++ nl
          ++ "----- CODE METADATA -----" ++ nl ++ nl ++ nl
          ++ "----- CODE TO REFACTOR -----" ++ nl),
    (nl ++ "----- CODE TO REFACTOR -----" ++ nl
     ++ py_str additional_instructions ++ closing_instructions).
  unfold final_instructions. repeat rewrite append_assoc. reflexivity.
Qed.

(** The prompt of a pass over templates laid out as the repository's. *)
Lemma code_refactor_prompt_layout
  (self : CodeRefactorTool) (template_name base : string)
  (code metadata additional_instructions : pyval)
  (body body' tail tail' : string) :
  get_prompt self "code_refactor" "FINAL_CODE_REFACTOR_INSTRUCTIONS"
    = Demo.FINAL_CODE_REFACTOR_INSTRUCTIONS ->
  get_prompt self "code_refactor" template_name
    = "{base_code_refactor_instructions}" ++ body
      ++ "{final_code_refactor_instructions}" ++ tail ->
  py_format body [] = Ok body' ->
  py_format tail [] = Ok tail' ->
  code_refactor_prompt self template_name base code metadata
    additional_instructions
  = Ok (base ++ body'
        ++ final_instructions metadata code additional_instructions ++ tail').
Proof.
  intros Hfinal Htemplate Hbody Htail.
  unfold code_refactor_prompt.
  rewrite Hfinal, final_instructions_formatted. cbn [bindR].
  rewrite Htemplate.
  generalize (final_instructions metadata code additional_instructions).
  intros final.
  set (kwargs := [ ("base_code_refactor_instructions", PStr base);
                   ("final_code_refactor_instructions", PStr final) ]).
  assert (Hb : py_format "{base_code_refactor_instructions}" kwargs
               = Ok (base ++ EmptyString)) by reflexivity.
  assert (Hf : py_format "{final_code_refactor_instructions}" kwargs
               = Ok (final ++ EmptyString)) by reflexivity.
  rewrite (py_format_app kwargs _ _ _ _ Hb
             (py_format_app kwargs _ _ _ _
                (format_aux_without_fields kwargs _ _ _ Hbody)
                (py_format_app kwargs _ _ _ _ Hf
                   (format_aux_without_fields kwargs _ _ _ Htail)))).
  now rewrite !append_nil_r.
Qed.

(** In such a prompt the code stands between its two markers. *)
Lemma layout_shows_code_between_markers
  (base body' tail' : string) (code metadata additional_instructions : pyval) :
  contains (Demo.between_markers (py_str code))
    (base ++ body'
     ++ final_instructions metadata code additional_instructions ++ tail')
  = true.
Proof.
  unfold final_instructions, Demo.between_markers.
  replace (base ++ body'
           ++ (nl ++ "----- CODE METADATA -----" ++ nl
               ++ py_str metadata ++ nl
               ++ "----- CODE METADATA -----" ++ nl
               ++ nl
               ++ nl
               ++ "----- CODE TO REFACTOR -----" ++ nl
               ++ py_str code ++ nl
               ++ "----- CODE TO REFACTOR -----" ++ nl
               ++ py_str additional_instructions ++ closing_instructions)
           ++ tail')
    with ((base ++ body'
           ++ nl ++ "----- CODE METADATA -----" ++ nl
           ++ py_str metadata ++ nl
           ++ "----- CODE METADATA -----" ++ nl
           ++ nl
           ++ nl)
          ++ ("----- CODE TO REFACTOR -----" ++ nl
              ++ py_str code ++ nl
              ++ "----- CODE TO REFACTOR -----")
          ++ (nl ++ py_str additional_instructions ++ closing_instructions
              ++ tail'))
    by (now rewrite !append_assoc).
  apply contains_append.
Qed.

(** X1.  With the final instructions of the repository and a template
    made of the base field, a body without fields, the final field and a
    tail without fields, building a prompt never fails, whatever braces the
    code, the metadata or the instructions hold: the prompt is the base
    instructions, the body, the final instructions with [str(metadata)],
    [str(code)] and [str(additional_instructions)] between their markers,
    and the tail; the code can be read in it as it is. *)
Theorem prompt_shows_the_code_as_it_is
  (self : CodeRefactorTool) (t : template) (base : string)
  (code metadata additional_instructions : pyval)
  (body body' tail tail' : string) :
  get_prompt self "code_refactor" "FINAL_CODE_REFACTOR_INSTRUCTIONS"
    = Demo.FINAL_CODE_REFACTOR_INSTRUCTIONS ->
  get_prompt self "code_refactor" (name t)
    = "{base_code_refactor_instructions}" ++ body
      ++ "{final_code_refactor_instructions}" ++ tail ->
  py_format body [] = Ok body' ->
  py_format tail [] = Ok tail' ->
  code_refactor_prompt self (name t) base code metadata additional_instructions
    = Ok (base ++ body'
          ++ final_instructions metadata code additional_instructions ++ tail')
  /\ contains (py_str code)
       (base ++ body'
        ++ final_instructions metadata code additional_instructions ++ tail')
     = true.
Proof.
  intros Hfinal Htemplate Hbody Htail. split.
  - exact (code_refactor_prompt_layout _ _ _ _ _ _ _ _ _ _
             Hfinal Htemplate Hbody Htail).
  - destruct (final_instructions_show_code metadata code
                additional_instructions) as (before & behind & ->).
    replace (base ++ body' ++ (before ++ py_str code ++ behind) ++ tail')
      with ((base ++ body' ++ before) ++ py_str code ++ behind ++ tail')
      by (now rewrite !append_assoc).
    apply contains_append.
Qed.

Lemma prompt_shows_the_code_as_it_is_witness :
  get_prompt Demo.two_passes "code_refactor" "FINAL_CODE_REFACTOR_INSTRUCTIONS"
    = Demo.FINAL_CODE_REFACTOR_INSTRUCTIONS
  /\ get_prompt Demo.two_passes "code_refactor" (name Demo.security)
     = "{base_code_refactor_instructions}" ++ Cases.security_body
       ++ "{final_code_refactor_instructions}" ++ nl
  /\ py_format Cases.security_body [] = Ok Cases.security_body_formatted
  /\ py_format nl [] = Ok nl
  /\ code_refactor_prompt Demo.two_passes (name Demo.security) Demo.base
       (PStr "d = {'a': {1}}") Demo.a_py PNone
     = Ok (Demo.base ++ Cases.security_body_formatted
           ++ final_instructions Demo.a_py (PStr "d = {'a': {1}}") PNone ++ nl).
Proof.
  assert (H1 : get_prompt Demo.two_passes "code_refactor"
                 "FINAL_CODE_REFACTOR_INSTRUCTIONS"
               = Demo.FINAL_CODE_REFACTOR_INSTRUCTIONS) by reflexivity.
  assert (H2 : get_prompt Demo.two_passes "code_refactor" (name Demo.security)
               = "{base_code_refactor_instructions}" ++ Cases.security_body
                 ++ "{final_code_refactor_instructions}" ++ nl)
    by (vm_compute; reflexivity).
  assert (H3 : py_format Cases.security_body []
               = Ok Cases.security_body_formatted)
    by (vm_compute; reflexivity).
  assert (H4 : py_format nl [] = Ok nl) by reflexivity.
  repeat (split; [assumption | ]).
  exact (proj1 (prompt_shows_the_code_as_it_is Demo.two_passes Demo.security
                  Demo.base (PStr "d = {'a': {1}}") Demo.a_py PNone _ _ _ _
                  H1 H2 H3 H4)).
Defined.

(** ** Settings that are missing *)

Lemma active_templates_raises (settings : pyval)
  (pre post : list (string * string)) (setting description : string)
  (e : exn) :
  (forall s d,
      In (s, d) pre ->
      exists value, setting_value settings ("enable_" ++ s) = Ok value) ->
  setting_value settings ("enable_" ++ setting) = Raise e ->
  active_templates settings (pre ++ (setting, description) :: post)%list
  = Raise e.
Proof.
  induction pre as [|[s d] pre IH]; intros Hpre He.
  - cbn [app active_templates]. rewrite He. reflexivity.
  - destruct (Hpre s d (or_introl eq_refl)) as (value & Hv).
    cbn [app active_templates]. rewrite Hv. cbn [bindR].
    rewrite IH; [reflexivity | | exact He].
    intros s' d' Hin. apply (Hpre s' d'). now right.
Qed.

(** X2.  A concern whose [enable_...] setting is absent is not taken as
    disabled: the first such setting, in the order of [template_checks],
    makes the selection raise the [KeyError] of its key, and a run then
    ends in that exception without sending anything to the model. *)
Theorem absent_enable_setting_raises_key_error
  (self : CodeRefactorTool) (tool_name : string)
  (settings : list (string * pyval))
  (pre post : list (string * string)) (setting description : string) :
  additional_settings self tool_name = Ok (PDict settings) ->
  template_checks = (pre ++ (setting, description) :: post)%list ->
  (forall s d,
      In (s, d) pre ->
      exists value, setting_value (PDict settings) ("enable_" ++ s) = Ok value) ->
  dict_get ("enable_" ++ setting) settings = None ->
  get_active_code_refactor_templates self tool_name
    = Raise (KeyError ("enable_" ++ setting))
  /\ forall code base additional_instructions metadata sent,
       _run_code_refactors self code base tool_name additional_instructions
         metadata sent
       = (sent, Raise (KeyError ("enable_" ++ setting))).
Proof.
  intros Hs Hrows Hpre Hnone.
  assert (H : get_active_code_refactor_templates self tool_name
              = Raise (KeyError ("enable_" ++ setting))).
  { unfold get_active_code_refactor_templates. rewrite Hs. cbn [bindR].
    rewrite Hrows. apply active_templates_raises; [exact Hpre | ].
    unfold setting_value, py_getitem. rewrite Hnone. reflexivity. }
  split; [exact H | ].
  intros. unfold _run_code_refactors, bindM, liftM. rewrite H. reflexivity.
Qed.

Lemma absent_enable_setting_raises_key_error_witness :
  additional_settings Cases.missing_setting Demo.from_file_id
    = Ok Cases.two_settings
  /\ template_checks
     = ([ ("security_code_refactor", "Security");
          ("performance_code_refactor", "Performance") ]
        ++ ("memory_code_refactor", "Memory")
           :: [ ("correctness_code_refactor", "Correctness");
                ("maintainability_code_refactor", "Maintainability");
                ("reliability_code_refactor", "Reliability") ])%list
  /\ get_active_code_refactor_templates Cases.missing_setting
       Demo.from_file_id
     = Raise (KeyError "enable_memory_code_refactor").
Proof.
  split; [reflexivity | split; [reflexivity | ]].
  refine (proj1 (absent_enable_setting_raises_key_error Cases.missing_setting
                   Demo.from_file_id _
                   [ ("security_code_refactor", "Security");
                     ("performance_code_refactor", "Performance") ]
                   _ "memory_code_refactor" "Memory" eq_refl eq_refl _ eq_refl)).
  intros s d Hin. cbn [In] in Hin.
  destruct Hin as [Hin | [Hin | Hin]];
    [ inversion Hin; subst; eexists; reflexivity
    | inversion Hin; subst; eexists; reflexivity
    | contradiction ].
Defined.

(** ** How many prompts a run sends *)

Lemma chained_length (self : CodeRefactorTool) (base : string)
  (additional_instructions metadata : pyval) (templates : list template) :
  forall code n prompts,
    chained self base additional_instructions metadata templates code n prompts ->
    length prompts <= length templates.
Proof.
  induction templates as [|t templates IH]; intros code n prompts Hc.
  - destruct prompts; [apply le_n | contradiction].
  - destruct prompts as [|p prompts]; [apply Nat.le_0_l | ].
    cbn [chained] in Hc. destruct Hc as [_ [-> | (reply & code' & _ & _ & _ & Hc)]].
    + cbn. lia.
    + cbn. apply le_n_S. exact (IH _ _ _ Hc).
Qed.

Lemma active_templates_length (settings : pyval)
  (checks : list (string * string)) :
  forall templates,
    active_templates settings checks = Ok templates ->
    length templates <= length checks.
Proof.
  induction checks as [|[setting description] checks IH]; intros templates.
  - cbn. intros H. injection H as <-. apply le_n.
  - cbn [active_templates].
    destruct (setting_value settings ("enable_" ++ setting)) as [v|];
      cbn [bindR]; [ | discriminate].
    destruct (active_templates settings checks) as [ts|]; cbn [bindR];
      [ | discriminate].
    intros H. injection H as <-. specialize (IH ts eq_refl).
    destruct (py_truthy v); cbn [length]; lia.
Qed.

(** X3.  A run only adds to the prompts already sent, and it adds at most
    one prompt for each active template, so never more than six; when the
    selection of the templates fails it adds none. *)
Theorem run_sends_at_most_one_prompt_per_template
  (self : CodeRefactorTool) (code : pyval) (base tool_name : string)
  (additional_instructions metadata : pyval) (sent : list string) :
  exists prompts,
    fst (_run_code_refactors self code base tool_name additional_instructions
           metadata sent) = (sent ++ prompts)%list
    /\ length prompts <= 6
    /\ match get_active_code_refactor_templates self tool_name with
       | Ok templates => length prompts <= length templates
       | Raise _ => prompts = []
       end.
Proof.
  destruct (run_prompts_chained self code base tool_name
              additional_instructions metadata sent)
    as (templates & prompts & Hs & Hc & Ht).
  exists prompts. split; [exact Hs | ].
  pose proof (chained_length _ _ _ _ _ _ _ _ Hc) as Hle.
  destruct prompts as [|p prompts].
  - split; [cbn; lia | ].
    destruct (get_active_code_refactor_templates self tool_name);
      [apply Nat.le_0_l | reflexivity].
  - rewrite (Ht ltac:(discriminate)) in *.
    split; [ | exact Hle].
    assert (Hsix : length templates <= 6).
    { specialize (Ht ltac:(discriminate)).
      unfold get_active_code_refactor_templates in Ht.
      destruct (additional_settings self tool_name) as [settings|];
        [ | discriminate].
      exact (active_templates_length _ _ _ Ht). }
    lia.
Qed.

(** ** The report of a run that went through all its passes *)

Lemma dict_get_set_same (k : string) (v : pyval) (d : list (string * pyval)) :
  dict_get k (dict_set k v d) = Some v.
Proof.
  induction d as [|[k0 v0] d IH]; cbn [dict_set dict_get].
  - now rewrite String.eqb_refl.
  - destruct (String.eqb k0 k) eqn:E; cbn [dict_get]; rewrite E;
      [reflexivity | exact IH].
Qed.

Lemma py_getitem_setitem_same (reply data x : pyval) (k : string) :
  py_setitem reply k x = Ok data -> py_getitem data k = Ok x.
Proof.
  destruct reply; cbn [py_setitem]; try discriminate.
  intros H. injection H as <-. cbn [py_getitem].
  now rewrite dict_get_set_same.
Qed.

(** A loop that runs to its end sends one prompt for each template and
    adds one entry for each template to [refactor_results], typed with the
    description of that template. *)
Lemma refactor_loop_results (self : CodeRefactorTool) (base : string)
  (additional_instructions metadata : pyval) (templates : list template) :
  forall code data results sent sent' code' data' results',
    refactor_loop self templates code data results base
      additional_instructions metadata sent
    = (sent', Ok (Finished code' data' results')) ->
    length sent' = length sent + length templates
    /\ exists added,
         results' = (results ++ added)%list
         /\ Forall2 (fun t entry =>
                       py_getitem entry "refactor_type"
                       = Ok (PStr (description t)))
              templates added.
Proof.
  induction templates as [|t templates IH];
    intros code data results sent sent' code' data' results'.
  - cbn. intros H. injection H as <- <- <- <-.
    split; [lia | ]. exists []. rewrite app_nil_r. now split.
  - cbn [refactor_loop]. unfold bindM.
    destruct (code_refactor_prompt self (name t) base code metadata
                additional_instructions) as [prompt|e] eqn:Hp.
    + rewrite (refactor_pass_sends _ _ _ _ _ _ _ _ Hp).
      destruct (parse_json self (predict self (length sent) prompt))
        as [reply|]; cbn [bindR]; [ | discriminate].
      destruct (use_reply t reply) as [[answer|code1 data1]|] eqn:Hu;
        try discriminate.
      intros H. destruct (IH _ _ _ _ _ _ _ _ H) as (Hlen & added & -> & Hall).
      split.
      * rewrite Hlen, length_app. cbn. lia.
      * exists (data1 :: added). split; [now rewrite <- app_assoc | ].
        constructor; [ | exact Hall].
        destruct (use_reply_fed _ _ _ _ Hu) as (_ & _ & Hset).
        exact (py_getitem_setitem_same _ _ _ _ Hset).
    + rewrite (refactor_pass_unsent _ _ _ _ _ _ _ _ Hp). discriminate.
Qed.

Lemma thought_entries_typed (entries thoughts : list pyval) :
  mapR thought_entry entries = Ok thoughts ->
  Forall2 (fun entry thought =>
             py_getitem thought "refactor_type"
             = py_getitem entry "refactor_type")
    entries thoughts.
Proof.
  revert thoughts. induction entries as [|entry entries IH]; intros thoughts.
  - cbn. intros H. injection H as <-. constructor.
  - cbn [mapR]. unfold thought_entry at 1.
    destruct (py_getitem entry "refactor_type") as [rt|] eqn:Hrt; cbn [bindR];
      [ | discriminate].
    destruct (py_getitem entry "thoughts") as [th|]; cbn [bindR];
      [ | discriminate].
    destruct (mapR thought_entry entries) as [rest|]; cbn [bindR];
      [ | discriminate].
    intros H. injection H as <-.
    constructor; [now rewrite Hrt | now apply IH].
Qed.

Lemma Forall2_compose {A B C : Type} (P : A -> B -> Prop) (Q : B -> C -> Prop)
  (R : A -> C -> Prop) :
  (forall a b c, P a b -> Q b c -> R a c) ->
  forall la lb lc, Forall2 P la lb -> Forall2 Q lb lc -> Forall2 R la lc.
Proof.
  intros H la lb lc HP. revert lc.
  induction HP as [|a b la lb Hab _ IH]; intros lc HQ; inversion HQ; subst.
  - constructor.
  - constructor; [eapply H; eassumption | now apply IH].
Qed.

Lemma final_results_fields (code data report : pyval)
  (refactor_results : list pyval) :
  final_results code (Some data) refactor_results = Ok report ->
  exists thoughts,
    mapR thought_entry refactor_results = Ok thoughts
    /\ py_getitem report "refactor_thoughts" = Ok (PList thoughts)
    /\ py_getitem report "refactored_code" = Ok code
    /\ py_getitem report "language" = py_getitem data "language".
Proof.
  unfold final_results.
  destruct (py_getitem data "metadata") as [m|]; cbn [bindR]; try discriminate.
  destruct (py_getitem data "language") as [l|]; cbn [bindR]; try discriminate.
  destruct (mapR thought_entry refactor_results) as [ths|]; cbn [bindR];
    try discriminate.
  intros H. injection H as <-. exists ths. repeat split.
Qed.

(** X4.  A run that goes through all its passes has sent exactly one prompt
    for each active template, and its report holds one thought for each
    template, in the order of the passes, typed with the description of the
    template: a ["refactor_type"] that a reply brings is overwritten. *)
Theorem report_has_one_thought_per_pass
  (self : CodeRefactorTool) (templates : list template)
  (code0 code data report : pyval) (base : string)
  (additional_instructions metadata : pyval) (sent sent' : list string)
  (refactor_results : list pyval) :
  refactor_loop self templates code0 None [] base additional_instructions
    metadata sent = (sent', Ok (Finished code (Some data) refactor_results)) ->
  final_results code (Some data) refactor_results = Ok report ->
  length sent' = length sent + length templates
  /\ exists thoughts,
       py_getitem report "refactor_thoughts" = Ok (PList thoughts)
       /\ Forall2 (fun t thought =>
                     py_getitem thought "refactor_type"
                     = Ok (PStr (description t)))
            templates thoughts.
Proof.
  intros Hloop Hfinal.
  destruct (refactor_loop_results _ _ _ _ _ _ _ _ _ _ _ _ _ Hloop)
    as (Hlen & added & Hadded & Htyped).
  cbn [app] in Hadded. subst added. split; [exact Hlen | ].
  destruct (final_results_fields _ _ _ _ Hfinal) as (thoughts & Hm & Ht & _).
  exists thoughts. split; [exact Ht | ].
  refine (Forall2_compose _ _ _ _ _ _ _ Htyped (thought_entries_typed _ _ Hm)).
  intros t entry thought Hentry Hthought. now rewrite Hthought.
Qed.

Lemma report_has_one_thought_per_pass_witness :
  refactor_loop Cases.typed_tool [Demo.security] Demo.numbered None []
    Demo.base PNone Demo.a_py []
  = ([Demo.first_prompt],
     Ok (Finished (PStr "a=1")
           (Some (PDict [ ("language", PStr "python");
                          ("refactor_type", PStr "Security");
                          ("metadata", PDict [("filename", PStr "a.py")]);
                          ("thoughts", PStr "Nothing to change.");
                          ("refactored_code", PStr "a=1") ]))
           [ PDict [ ("language", PStr "python");
                     ("refactor_type", PStr "Security");
                     ("metadata", PDict [("filename", PStr "a.py")]);
                     ("thoughts", PStr "Nothing to change.");
                     ("refactored_code", PStr "a=1") ] ]))
  /\ final_results (PStr "a=1")
       (Some (PDict [ ("language", PStr "python");
                      ("refactor_type", PStr "Security");
                      ("metadata", PDict [("filename", PStr "a.py")]);
                      ("thoughts", PStr "Nothing to change.");
                      ("refactored_code", PStr "a=1") ]))
       [ PDict [ ("language", PStr "python");
                 ("refactor_type", PStr "Security");
                 ("metadata", PDict [("filename", PStr "a.py")]);
                 ("thoughts", PStr "Nothing to change.");
                 ("refactored_code", PStr "a=1") ] ]
     = Ok (compile_results (PStr "python") Demo.a_py
             [ PDict [ ("refactor_type", PStr "Security");
                       ("thoughts", PStr "Nothing to change.") ] ]
             (PStr "a=1"))
  /\ length [Demo.first_prompt] = length (@nil string) + length [Demo.security].
Proof.
  assert (H1 : refactor_loop Cases.typed_tool [Demo.security] Demo.numbered
                 None [] Demo.base PNone Demo.a_py []
               = ([Demo.first_prompt],
                  Ok (Finished (PStr "a=1")
                        (Some (PDict [ ("language", PStr "python");
                                       ("refactor_type", PStr "Security");
                                       ("metadata", PDict [("filename", PStr "a.py")]);
                                       ("thoughts", PStr "Nothing to change.");
                                       ("refactored_code", PStr "a=1") ]))
                        [ PDict [ ("language", PStr "python");
                                  ("refactor_type", PStr "Security");
                                  ("metadata", PDict [("filename", PStr "a.py")]);
                                  ("thoughts", PStr "Nothing to change.");
                                  ("refactored_code", PStr "a=1") ] ])))
    by (vm_compute; reflexivity).
  assert (H2 : final_results (PStr "a=1")
                 (Some (PDict [ ("language", PStr "python");
                                ("refactor_type", PStr "Security");
                                ("metadata", PDict [("filename", PStr "a.py")]);
                                ("thoughts", PStr "Nothing to change.");
                                ("refactored_code", PStr "a=1") ]))
                 [ PDict [ ("language", PStr "python");
                           ("refactor_type", PStr "Security");
                           ("metadata", PDict [("filename", PStr "a.py")]);
                           ("thoughts", PStr "Nothing to change.");
                           ("refactored_code", PStr "a=1") ] ]
               = Ok (compile_results (PStr "python") Demo.a_py
                       [ PDict [ ("refactor_type", PStr "Security");
                                 ("thoughts", PStr "Nothing to change.") ] ]
                       (PStr "a=1")))
    by reflexivity.
  split; [exact H1 | split; [exact H2 | ]].
  exact (proj1 (report_has_one_thought_per_pass _ _ _ _ _ _ _ _ _ _ _ _
                  H1 H2)).
Defined.

(** X5.  The code and the language of the report of a run that went
    through all its passes are the ["refactored_code"] and the
    ["language"] of the decoded reply to the last prompt: what the earlier
    passes returned as language is not in the report. *)
Theorem report_code_and_language_are_the_last_reply_s
  (self : CodeRefactorTool) (templates : list template)
  (code0 code data report : pyval) (base : string)
  (additional_instructions metadata : pyval) (sent sent' : list string)
  (refactor_results : list pyval) :
  refactor_loop self templates code0 None [] base additional_instructions
    metadata sent = (sent', Ok (Finished code (Some data) refactor_results)) ->
  final_results code (Some data) refactor_results = Ok report ->
  exists front prompt reply,
    sent' = (front ++ [prompt])%list
    /\ parse_json self (predict self (length front) prompt) = Ok reply
    /\ py_getitem report "refactored_code"
       = py_getitem reply "refactored_code"
    /\ py_getitem report "language" = py_getitem reply "language".
Proof.
  intros Hloop Hfinal.
  assert (Hne : templates <> []).
  { intros ->. cbn in Hloop. discriminate. }
  destruct (exists_last Hne) as (pre & t & ->).
  destruct (refactor_loop_last _ _ _ _ _ _ _ _ _ _ _ _ _ _ Hloop)
    as (sent1 & code1 & data1 & results1 & prompt & reply & data'
        & _ & _ & -> & Hr & Hu & Hd & _).
  injection Hd as <-.
  destruct (use_reply_fed _ _ _ _ Hu) as (_ & Hcode & Hset).
  destruct (final_results_fields _ _ _ _ Hfinal) as (_ & _ & _ & Hc & Hl).
  exists sent1, prompt, reply. repeat split; try assumption.
  - now rewrite Hc, Hcode.
  - rewrite Hl. eapply py_getitem_after_setitem; [ | exact Hset]. discriminate.
Qed.

Lemma report_code_and_language_are_the_last_reply_s_witness :
  refactor_loop Demo.two_passes [Demo.security; Demo.performance]
    Demo.numbered None [] Demo.base PNone Demo.a_py []
  = ([Demo.first_prompt; Demo.second_prompt],
     Ok (Finished (PStr "a = 1") (Some Demo.renamed_data)
           [Demo.spaced_data; Demo.renamed_data]))
  /\ final_results (PStr "a = 1") (Some Demo.renamed_data)
       [Demo.spaced_data; Demo.renamed_data]
     = Ok Demo.two_passes_report
  /\ exists front prompt reply,
       [Demo.first_prompt; Demo.second_prompt] = (front ++ [prompt])%list
       /\ parse_json Demo.two_passes
            (predict Demo.two_passes (length front) prompt) = Ok reply
       /\ py_getitem Demo.two_passes_report "refactored_code"
          = py_getitem reply "refactored_code"
       /\ py_getitem Demo.two_passes_report "language"
          = py_getitem reply "language".
Proof.
  assert (H1 : refactor_loop Demo.two_passes [Demo.security; Demo.performance]
                 Demo.numbered None [] Demo.base PNone Demo.a_py []
               = ([Demo.first_prompt; Demo.second_prompt],
                  Ok (Finished (PStr "a = 1") (Some Demo.renamed_data)
                        [Demo.spaced_data; Demo.renamed_data])))
    by (vm_compute; reflexivity).
  assert (H2 : final_results (PStr "a = 1") (Some Demo.renamed_data)
                 [Demo.spaced_data; Demo.renamed_data]
               = Ok Demo.two_passes_report)
    by (vm_compute; reflexivity).
  split; [exact H1 | split; [exact H2 | ]].
  exact (report_code_and_language_are_the_last_reply_s _ _ _ _ _ _ _ _ _ _ _
           _ H1 H2).
Defined.

(** ** Runs from a file id *)

(** X6.  A stored file whose classification, in lower case, is not [code]
    is answered with the not-code message: its data is not read and
    nothing is sent to the model. *)
Theorem file_that_is_not_code_is_not_refactored
  (self : CodeRefactorTool) (target_file_id : Z)
  (additional_instructions : pyval) (stored : file_model)
  (sent : list string) :
  get_file self target_file_id = Ok stored ->
  py_lower (file_classification stored) <> "code" ->
  conduct_code_refactor_from_file_id self target_file_id
    additional_instructions sent
  = (sent, Ok (PStr not_code_message)).
Proof.
  intros Hfile Hclass.
  unfold conduct_code_refactor_from_file_id, bindM, liftM. rewrite Hfile.
  apply String.eqb_neq in Hclass. rewrite Hclass. reflexivity.
Qed.

Lemma file_that_is_not_code_is_not_refactored_witness :
  get_file Cases.not_code 7 = Ok (mk_file_model 7 "Document" "notes.txt")
  /\ py_lower (file_classification (mk_file_model 7 "Document" "notes.txt"))
     <> "code"
  /\ conduct_code_refactor_from_file_id Cases.not_code 7 PNone []
     = ([], Ok (PStr not_code_message)).
Proof.
  assert (H1 : get_file Cases.not_code 7
               = Ok (mk_file_model 7 "Document" "notes.txt")) by reflexivity.
  assert (H2 : py_lower (file_classification
                           (mk_file_model 7 "Document" "notes.txt"))
               <> "code") by (vm_compute; discriminate).
  split; [exact H1 | split; [exact H2 | ]].
  exact (file_that_is_not_code_is_not_refactored _ _ PNone _ [] H1 H2).
Defined.

(** ** Runs from a URL *)

Lemma dict_remove_other (k k' : string) (d : list (string * pyval)) :
  k <> k' -> dict_get k' (dict_remove k d) = dict_get k' d.
Proof.
  intros ne. induction d as [|[k0 v0] d IH]; cbn [dict_remove dict_get].
  - reflexivity.
  - destruct (String.eqb_spec k0 k) as [->|]; cbn [dict_get].
    + destruct (String.eqb_spec k k'); [contradiction | reflexivity].
    + now rewrite IH.
Qed.

Lemma dict_get_absent (k : string) (d : list (string * pyval)) :
  ~ In k (map fst d) -> dict_get k d = None.
Proof.
  induction d as [|[k0 v0] d IH]; cbn; intros H.
  - reflexivity.
  - destruct (String.eqb_spec k0 k) as [->|]; [now elim H; left | ].
    apply IH. intros Hin. apply H. now right.
Qed.

Lemma dict_remove_same (k : string) (d : list (string * pyval)) :
  NoDup (map fst d) -> dict_get k (dict_remove k d) = None.
Proof.
  induction d as [|[k0 v0] d IH]; cbn [dict_remove dict_get map fst].
  - reflexivity.
  - intros H. inversion H as [|? ? Hnotin Hnodup]; subst.
    destruct (String.eqb_spec k0 k) as [->|ne]; cbn [dict_get].
    + now apply dict_get_absent.
    + destruct (String.eqb_spec k0 k); [contradiction | now apply IH].
Qed.

(** X7.  A file from a URL that counts no more tokens than the maximum,
    the maximum itself included, is refactored: the run is that of
    [_conduct_code_refactor] on the file content, and the metadata it
    carries is the file info without its ["file_content"] and with every
    other key as it was. *)
Theorem file_within_budget_is_refactored
  (self : CodeRefactorTool) (file_info : list (string * pyval))
  (file_data : pyval) (target_url : string) (additional_instructions : pyval)
  (code_file_token_count max_token_count : Z) (sent : list string) :
  NoDup (map fst file_info) ->
  dict_get "file_content" file_info = Some file_data ->
  num_tokens_from_string self file_data = Ok code_file_token_count ->
  get_max_code_refactor_token_count self "conduct_code_refactor_from_url"
    = Ok (PInt max_token_count) ->
  (code_file_token_count <= max_token_count)%Z ->
  exists metadata,
    _refactor_file_from_url self (PDict file_info) target_url
      additional_instructions sent
    = _conduct_code_refactor self file_data "conduct_code_refactor_from_url"
        additional_instructions (PDict metadata) sent
    /\ dict_get "file_content" metadata = None
    /\ forall key,
         key <> "file_content" ->
         dict_get key metadata = dict_get key file_info.
Proof.
  intros Hkeys Hdata Hcount Hmax Hle.
  exists (dict_remove "file_content" file_info). split; [ | split].
  - unfold _refactor_file_from_url, bindM, liftM. cbn [pop_file_content].
    rewrite Hdata, Hcount, Hmax. cbn [py_int_gt].
    assert (Hnot : (max_token_count <? code_file_token_count)%Z = false)
      by (apply Z.ltb_ge; exact Hle).
    rewrite Hnot. reflexivity.
  - now apply dict_remove_same.
  - intros key Hkey. apply dict_remove_other. congruence.
Qed.

Lemma file_within_budget_is_refactored_witness :
  NoDup (map fst [ ("url", PStr "https://github.com/o/r/blob/main/x.py");
                   ("file_content", PStr Cases.ten);
                   ("branch", PStr "main") ])
  /\ num_tokens_from_string Cases.at_budget (PStr Cases.ten) = Ok 10%Z
  /\ get_max_code_refactor_token_count Cases.at_budget
       "conduct_code_refactor_from_url" = Ok (PInt 10)
  /\ (10 <= 10)%Z
  /\ exists metadata,
       _refactor_file_from_url Cases.at_budget Cases.ten_info
         "https://github.com/o/r/blob/main/x.py" PNone []
       = _conduct_code_refactor Cases.at_budget (PStr Cases.ten)
           "conduct_code_refactor_from_url" PNone (PDict metadata) []
       /\ dict_get "file_content" metadata = None
       /\ dict_get "branch" metadata = Some (PStr "main").
Proof.
  assert (H0 : NoDup (map fst [ ("url", PStr "https://github.com/o/r/blob/main/x.py");
                                ("file_content", PStr Cases.ten);
                                ("branch", PStr "main") ])).
  { cbn. repeat constructor; cbn; intuition discriminate. }
  assert (H1 : num_tokens_from_string Cases.at_budget (PStr Cases.ten)
               = Ok 10%Z) by reflexivity.
  assert (H2 : get_max_code_refactor_token_count Cases.at_budget
                 "conduct_code_refactor_from_url" = Ok (PInt 10))
    by reflexivity.
  assert (H3 : (10 <= 10)%Z) by lia.
  repeat (split; [assumption | ]).
  destruct (file_within_budget_is_refactored Cases.at_budget _ _
              "https://github.com/o/r/blob/main/x.py" PNone 10 10 []
              H0 eq_refl H1 H2 H3) as (metadata & Hrun & Hnone & Hkeep).
  exists metadata. split; [exact Hrun | split; [exact Hnone | ]].
  rewrite (Hkeep "branch") by discriminate. reflexivity.
Defined.

(** X8.  With a source control provider that is neither [gitlab] nor
    [github], retrieval gives back the text of an error message instead of
    a file info, and the run from the URL, which pops ["file_content"] from
    what it was given, ends in an [AttributeError]: the message is not
    returned, and nothing is sent to the model. *)
Theorem unsupported_provider_ends_in_attribute_error
  (self : CodeRefactorTool) (target_url : string)
  (additional_instructions : pyval) (sent : list string) :
  source_control_provider self <> "gitlab" ->
  source_control_provider self <> "github" ->
  retrieve_source_code_from_url self target_url
    = Ok (PStr ("Source control provider " ++ source_control_provider self
                ++ " does not support file retrieval"))
  /\ conduct_code_refactor_from_url self target_url additional_instructions
       sent = (sent, Raise AttributeError).
Proof.
  intros Hgitlab Hgithub.
  assert (H : retrieve_source_code_from_url self target_url
              = Ok (PStr ("Source control provider "
                          ++ source_control_provider self
                          ++ " does not support file retrieval"))).
  { unfold retrieve_source_code_from_url, source_control_to_retriever_map.
    cbn [existsb].
    apply String.eqb_neq in Hgitlab, Hgithub. now rewrite Hgitlab, Hgithub. }
  split; [exact H | ].
  unfold conduct_code_refactor_from_url, bindM, liftM. rewrite H. reflexivity.
Qed.

Lemma unsupported_provider_ends_in_attribute_error_witness :
  source_control_provider Cases.unsupported <> "gitlab"
  /\ source_control_provider Cases.unsupported <> "github"
  /\ conduct_code_refactor_from_url Cases.unsupported
       "https://bitbucket.org/o/r/src/main/a.py" PNone []
     = ([], Raise AttributeError).
Proof.
  assert (H1 : source_control_provider Cases.unsupported <> "gitlab")
    by (cbn; discriminate).
  assert (H2 : source_control_provider Cases.unsupported <> "github")
    by (cbn; discriminate).
  split; [exact H1 | split; [exact H2 | ]].
  exact (proj2 (unsupported_provider_ends_in_attribute_error _
                  "https://bitbucket.org/o/r/src/main/a.py" PNone [] H1 H2)).
Defined.

(** ** Replies of another shape *)

Lemma use_reply_not_a_dict (t : template) (reply : pyval) :
  (forall d, reply <> PDict d) -> use_reply t reply = Raise TypeError.
Proof.
  intros H. unfold use_reply.
  destruct reply as [| b | z | s | l | d]; cbn [py_contains bindR];
    try reflexivity.
  - destruct (contains "final_answer" s); reflexivity.
  - destruct (existsb (is_str "final_answer") l); reflexivity.
  - now elim (H d).
Qed.

(** X9.  A reply that decodes to anything but a dictionary, a list or a
    text that holds [final_answer] included, stops the run at that pass
    with a [TypeError]: nothing is returned and no later pass is run. *)
Theorem reply_that_is_not_a_dict_raises_type_error
  (self : CodeRefactorTool) (tool_name : string)
  (pre post : list template) (t : template) (code0 code : pyval)
  (base : string) (additional_instructions metadata : pyval)
  (sent sent1 : list string) (data : option pyval) (results : list pyval)
  (prompt : string) (reply : pyval) :
  get_active_code_refactor_templates self tool_name = Ok (pre ++ t :: post)%list ->
  refactor_loop self pre code0 None [] base additional_instructions metadata
    sent = (sent1, Ok (Finished code data results)) ->
  code_refactor_prompt self (name t) base code metadata additional_instructions
    = Ok prompt ->
  parse_json self (predict self (length sent1) prompt) = Ok reply ->
  (forall d, reply <> PDict d) ->
  _run_code_refactors self code0 base tool_name additional_instructions
    metadata sent = ((sent1 ++ [prompt])%list, Raise TypeError).
Proof.
  intros Ht Hpre Hp Hr Hshape.
  apply (proj2 (run_stops_at_pass _ _ _ _ _ _ _ _ _ _ _ _ _ _ _ _
                  Ht Hpre Hp Hr)).
  now apply use_reply_not_a_dict.
Qed.

Lemma reply_that_is_not_a_dict_raises_type_error_witness :
  get_active_code_refactor_templates Cases.list_tool Demo.from_file_id
    = Ok ([] ++ Demo.security :: [])%list
  /\ refactor_loop Cases.list_tool [] Demo.numbered None [] Demo.base PNone
       Demo.a_py []
     = ([], Ok (Finished Demo.numbered None []))
  /\ code_refactor_prompt Cases.list_tool (name Demo.security) Demo.base
       Demo.numbered Demo.a_py PNone = Ok Demo.first_prompt
  /\ parse_json Cases.list_tool
       (predict Cases.list_tool (length (@nil string)) Demo.first_prompt)
     = Ok (PList [PStr "final_answer"])
  /\ (forall d, PList [PStr "final_answer"] <> PDict d)
  /\ _run_code_refactors Cases.list_tool Demo.numbered Demo.base
       Demo.from_file_id PNone Demo.a_py []
     = ([Demo.first_prompt], Raise TypeError).
Proof.
  assert (H1 : get_active_code_refactor_templates Cases.list_tool
                 Demo.from_file_id
               = Ok ([] ++ Demo.security :: [])%list)
    by (vm_compute; reflexivity).
  assert (H2 : refactor_loop Cases.list_tool [] Demo.numbered None []
                 Demo.base PNone Demo.a_py []
               = ([], Ok (Finished Demo.numbered None [])))
    by reflexivity.
  assert (H3 : code_refactor_prompt Cases.list_tool (name Demo.security)
                 Demo.base Demo.numbered Demo.a_py PNone
               = Ok Demo.first_prompt)
    by (vm_compute; reflexivity).
  assert (H4 : parse_json Cases.list_tool
                 (predict Cases.list_tool (length (@nil string))
                    Demo.first_prompt)
               = Ok (PList [PStr "final_answer"]))
    by (vm_compute; reflexivity).
  assert (H5 : forall d, PList [PStr "final_answer"] <> PDict d)
    by (intros d; discriminate).
  repeat (split; [assumption | ]).
  exact (reply_that_is_not_a_dict_raises_type_error _ _ _ _ _ _ _ _ _ _ _ _ _
           _ _ _ H1 H2 H3 H4 H5).
Defined.

(** ** The output setting *)

(** X10.  The [json_output] setting is read only once the passes are
    over: when reading it raises, the run ends in that exception after it
    has sent a prompt for every active template, and the report it had
    built is lost. *)
Theorem output_setting_is_read_after_the_passes
  (self : CodeRefactorTool) (tool_name : string) (templates : list template)
  (code0 code data report : pyval) (base : string)
  (additional_instructions metadata : pyval) (sent sent' : list string)
  (refactor_results : list pyval) (e : exn) :
  get_active_code_refactor_templates self tool_name = Ok templates ->
  refactor_loop self templates code0 None [] base additional_instructions
    metadata sent = (sent', Ok (Finished code (Some data) refactor_results)) ->
  final_results code (Some data) refactor_results = Ok report ->
  is_output_json self tool_name = Raise e ->
  _run_code_refactors self code0 base tool_name additional_instructions
    metadata sent = (sent', Raise e)
  /\ length sent' = length sent + length templates.
Proof.
  intros Ht Hloop Hfinal Hjson.
  assert (Hne : templates <> []).
  { intros ->. cbn in Hloop. discriminate. }
  split.
  - rewrite (run_with_templates _ _ _ _ _ _ _ _ Ht Hne), Hloop, Hfinal.
    cbn [bindR]. unfold render_results. rewrite Hjson. reflexivity.
  - exact (proj1 (refactor_loop_results _ _ _ _ _ _ _ _ _ _ _ _ _ Hloop)).
Qed.

Lemma output_setting_is_read_after_the_passes_witness :
  get_active_code_refactor_templates Cases.no_json Demo.from_file_id
    = Ok [Demo.security]
  /\ refactor_loop Cases.no_json [Demo.security] Demo.numbered None []
       Demo.base PNone Demo.a_py []
     = ([Demo.first_prompt],
        Ok (Finished (PStr "a = 1  # spaced") (Some Demo.spaced_data)
              [Demo.spaced_data]))
  /\ final_results (PStr "a = 1  # spaced") (Some Demo.spaced_data)
       [Demo.spaced_data]
     = Ok (compile_results (PStr "python") Demo.a_py
             [ PDict [ ("refactor_type", PStr "Security");
                       ("thoughts", PStr "Spaced the assignment.") ] ]
             (PStr "a = 1  # spaced"))
  /\ is_output_json Cases.no_json Demo.from_file_id
     = Raise (KeyError "json_output")
  /\ _run_code_refactors Cases.no_json Demo.numbered Demo.base
       Demo.from_file_id PNone Demo.a_py []
     = ([Demo.first_prompt], Raise (KeyError "json_output")).
Proof.
  assert (H1 : get_active_code_refactor_templates Cases.no_json
                 Demo.from_file_id = Ok [Demo.security])
    by (vm_compute; reflexivity).
  assert (H2 : refactor_loop Cases.no_json [Demo.security] Demo.numbered None
                 [] Demo.base PNone Demo.a_py []
               = ([Demo.first_prompt],
                  Ok (Finished (PStr "a = 1  # spaced") (Some Demo.spaced_data)
                        [Demo.spaced_data])))
    by (vm_compute; reflexivity).
  assert (H3 : final_results (PStr "a = 1  # spaced") (Some Demo.spaced_data)
                 [Demo.spaced_data]
               = Ok (compile_results (PStr "python") Demo.a_py
                       [ PDict [ ("refactor_type", PStr "Security");
                                 ("thoughts", PStr "Spaced the assignment.") ] ]
                       (PStr "a = 1  # spaced")))
    by reflexivity.
  assert (H4 : is_output_json Cases.no_json Demo.from_file_id
               = Raise (KeyError "json_output"))
    by reflexivity.
  repeat (split; [assumption | ]).
  exact (proj1 (output_setting_is_read_after_the_passes _ _ _ _ _ _ _ _ _ _ _
                  _ _ _ H1 H2 H3 H4)).
Defined.

(** ** Lines *)

Lemma splitlines_aux_line (line rest : string) :
  no_linebreak line = true ->
  forall cur,
    splitlines_aux (line ++ rest) cur = splitlines_aux rest (cur ++ line).
Proof.
  induction line as [|c line IH]; intros Hline cur.
  - cbn. now rewrite append_nil_r.
  - cbn [no_linebreak] in Hline. apply andb_prop in Hline as [Hc Hline].
    apply negb_true_iff in Hc.
    cbn [append splitlines_aux]. rewrite Hc, (IH Hline).
    now rewrite append_assoc.
Qed.

Lemma splitlines_aux_newline (rest cur : string) :
  splitlines_aux (nl ++ rest) cur = cur :: splitlines_aux rest EmptyString.
Proof. destruct rest; reflexivity. Qed.

Lemma splitlines_aux_join (lines : list string) :
  Forall (fun line => no_linebreak line = true) lines ->
  last lines "x" <> EmptyString ->
  splitlines_aux (join nl lines) EmptyString = lines.
Proof.
  induction lines as [|line lines IH]; intros Hlines Hlast.
  - reflexivity.
  - inversion Hlines as [|? ? Hline Hrest]; subst.
    destruct lines as [|line' lines].
    + cbn [join last] in *.
      rewrite <- (append_nil_r line) at 1.
      rewrite (splitlines_aux_line _ _ Hline). cbn.
      destruct line; [now elim Hlast | reflexivity].
    + change (join nl (line :: line' :: lines))
        with (line ++ nl ++ join nl (line' :: lines)).
      rewrite (splitlines_aux_line _ _ Hline), splitlines_aux_newline.
      cbn [append]. f_equal. apply IH; [exact Hrest | exact Hlast].
Qed.

(** X11.  For a file written as lines joined by line feeds, no line
    holding a line boundary and the last line not empty, the code of the
    first pass has one entry for each line, in order, each line behind its
    number from 1. *)
Theorem lines_joined_by_line_feeds_are_numbered_one_by_one
  (lines : list string) :
  Forall (fun line => no_linebreak line = true) lines ->
  last lines "x" <> EmptyString ->
  splitlines (join nl lines) = lines
  /\ code_with_line_numbers (PStr (join nl lines))
     = Ok (PList (map PStr (number_lines lines)))
  /\ forall j line,
       nth_error lines j = Some line ->
       nth_error (number_lines lines) j
       = Some (py_int_str (Z.of_nat (j + 1)) ++ ": " ++ line).
Proof.
  intros Hlines Hlast.
  assert (H : splitlines (join nl lines) = lines)
    by (now apply splitlines_aux_join).
  split; [exact H | split].
  - cbn [code_with_line_numbers]. now rewrite H.
  - intros j line Hj. exact (number_lines_from_nth _ 0 j line Hj).
Qed.

Lemma lines_joined_by_line_feeds_are_numbered_one_by_one_witness :
  Forall (fun line => no_linebreak line = true)
    ["def f():"; EmptyString; "    return 1"]
  /\ last ["def f():"; EmptyString; "    return 1"] "x" <> EmptyString
  /\ code_with_line_numbers
       (PStr (join nl ["def f():"; EmptyString; "    return 1"]))
     = Ok (PList (map PStr
                    (number_lines ["def f():"; EmptyString; "    return 1"]))).
Proof.
  assert (H1 : Forall (fun line => no_linebreak line = true)
                 ["def f():"; EmptyString; "    return 1"])
    by (repeat constructor).
  assert (H2 : last ["def f():"; EmptyString; "    return 1"] "x"
               <> EmptyString) by (cbn; discriminate).
  split; [exact H1 | split; [exact H2 | ]].
  exact (proj1 (proj2 (lines_joined_by_line_feeds_are_numbered_one_by_one _
                         H1 H2))).
Defined.

(** * The code shown to each pass *)

Lemma active_templates_rows (settings : pyval) (checks : list (string * string)) :
  forall templates,
    active_templates settings checks = Ok templates ->
    forall t, In t templates -> exists row, In row checks /\ t = template_of row.
Proof.
  induction checks as [|[setting description] checks IH]; intros templates.
  - cbn. intros H. injection H as <-. intros t [].
  - cbn [active_templates].
    destruct (setting_value settings ("enable_" ++ setting)) as [v|];
      cbn [bindR]; [ | discriminate].
    destruct (active_templates settings checks) as [ts|]; cbn [bindR];
      [ | discriminate].
    intros H. injection H as <-. intros t Hin.
    assert (Hrest : In t ts ->
                    exists row,
                      In row ((setting, description) :: checks)
                      /\ t = template_of row).
    { intros Hts. destruct (IH ts eq_refl t Hts) as (row & Hrow & ->).
      exists row. split; [now right | reflexivity]. }
    destruct (py_truthy v); [ | now apply Hrest].
    destruct Hin as [<- | Hin]; [ | now apply Hrest].
    exists (setting, description). split; [now left | reflexivity].
Qed.

(** Under the layout of the repository, a prompt built for an active
    template shows [str(code)] between the markers of the code. *)
Lemma active_prompt_shows_code (self : CodeRefactorTool) (tool_name : string)
  (templates : list template) (t : template) (base prompt : string)
  (code metadata additional_instructions : pyval) :
  repository_layout self ->
  get_active_code_refactor_templates self tool_name = Ok templates ->
  In t templates ->
  code_refactor_prompt self (name t) base code metadata additional_instructions
    = Ok prompt ->
  contains (Demo.between_markers (py_str code)) prompt = true.
Proof.
  intros [Hfinal Hrows] Ht Hin Hp.
  unfold get_active_code_refactor_templates in Ht.
  destruct (additional_settings self tool_name) as [settings|];
    [ | discriminate].
  destruct (active_templates_rows _ _ _ Ht t Hin) as (row & Hrow & ->).
  destruct (Hrows row Hrow) as (body & body' & tail & tail' & Hshape & Hb & Htl).
  rewrite (code_refactor_prompt_layout _ _ _ _ _ _ _ _ _ _
             Hfinal Hshape Hb Htl) in Hp.
  injection Hp as <-. apply layout_shows_code_between_markers.
Qed.

(** C9, as the code has it.  The code of the first pass is the list of the
    lines of the file, each behind its number from 1; the first prompt sent
    is built from that list for the first active template, and under the
    layout of the repository it shows the [repr] of the list between the
    markers of the code.  Every later prompt sent is built, for the next
    active template, from the ["refactored_code"] of the decoded reply to
    the prompt before it, as that reply has it, and shows it between the
    markers with nothing put in front of its lines. *)
Theorem only_the_first_code_is_numbered
  (self : CodeRefactorTool) (text : string) (tool_name : string)
  (additional_instructions metadata : pyval) :
  exists numbered base templates,
    code_with_line_numbers (PStr text) = Ok (PList (map PStr numbered))
    /\ length numbered = length (splitlines text)
    /\ (forall j line,
           nth_error (splitlines text) j = Some line ->
           nth_error numbered j
           = Some (py_int_str (Z.of_nat (j + 1)) ++ ": " ++ line))
    /\ (forall prompt,
           nth_error (fst (_conduct_code_refactor self (PStr text) tool_name
                             additional_instructions metadata [])) 0
           = Some prompt ->
           exists t,
             nth_error templates 0 = Some t
             /\ get_active_code_refactor_templates self tool_name
                = Ok templates
             /\ py_format
                  (get_prompt self "code_refactor"
                     "BASE_CODE_REFACTOR_INSTRUCTIONS_TEMPLATE")
                  [ ("format_instructions",
                     PStr (get_prompt self "code_refactor"
                             "CODE_REFACTOR_FORMAT_TEMPLATE")) ] = Ok base
             /\ code_refactor_prompt self (name t) base
                  (PList (map PStr numbered)) metadata additional_instructions
                = Ok prompt
             /\ (repository_layout self ->
                 contains
                   (Demo.between_markers (py_repr (PList (map PStr numbered))))
                   prompt = true))
    /\ (forall i p q,
           nth_error (fst (_conduct_code_refactor self (PStr text) tool_name
                             additional_instructions metadata [])) i
           = Some p ->
           nth_error (fst (_conduct_code_refactor self (PStr text) tool_name
                             additional_instructions metadata [])) (S i)
           = Some q ->
           exists t reply code,
             nth_error templates (S i) = Some t
             /\ parse_json self (predict self i p) = Ok reply
             /\ py_getitem reply "refactored_code" = Ok code
             /\ code_refactor_prompt self (name t) base code metadata
                  additional_instructions = Ok q
             /\ (repository_layout self ->
                 contains (Demo.between_markers (py_str code)) q = true)).
Proof.
  destruct (conduct_prompts_chained self text tool_name
              additional_instructions metadata)
    as (base & templates & Hc & Hne).
  exists (number_lines (splitlines text)), base, templates.
  split; [reflexivity | split; [apply number_lines_from_length | ]].
  split; [intros j line H; exact (number_lines_from_nth _ 0 j line H) | ].
  split.
  - intros prompt Hp.
    destruct (chained_first _ _ _ _ _ _ _ _ _ Hc Hp) as (t & Ht & Hb).
    destruct Hne as [Hbase Hactive].
    { intros E. rewrite E in Hp. discriminate. }
    exists t. repeat split; try assumption.
    intros Hlayout.
    exact (active_prompt_shows_code _ _ _ _ _ _ _ _ _ Hlayout Hactive
             (nth_error_In _ _ Ht) Hb).
  - intros i p q Hp Hq.
    destruct (chained_next _ _ _ _ _ _ _ _ _ _ _ Hc Hp Hq)
      as (t & reply & code & Ht & Hr & _ & Hg & Hb).
    destruct Hne as [Hbase Hactive].
    { intros E. rewrite E in Hp. destruct i; discriminate. }
    exists t, reply, code. repeat split; try assumption.
    intros Hlayout.
    exact (active_prompt_shows_code _ _ _ _ _ _ _ _ _ Hlayout Hactive
             (nth_error_In _ _ Ht) Hb).
Qed.

Lemma only_the_first_code_is_numbered_witness :
  repository_layout Demo.two_passes
  /\ nth_error (fst (_conduct_code_refactor Demo.two_passes (PStr "a=1")
                       Demo.from_file_id PNone Demo.a_py [])) 0
     = Some Demo.first_prompt
  /\ nth_error (fst (_conduct_code_refactor Demo.two_passes (PStr "a=1")
                       Demo.from_file_id PNone Demo.a_py [])) 1
     = Some Demo.second_prompt
  /\ contains (Demo.between_markers "['1: a=1']") Demo.first_prompt = true
  /\ exists reply code,
       parse_json Demo.two_passes
         (predict Demo.two_passes 0 Demo.first_prompt) = Ok reply
       /\ py_getitem reply "refactored_code" = Ok code
       /\ contains (Demo.between_markers (py_str code)) Demo.second_prompt
          = true.
Proof.
  assert (Hlayout : repository_layout Demo.two_passes).
  { split; [reflexivity | ].
    intros row Hin. cbn [In template_checks] in Hin.
    destruct Hin as [<- | [<- | [<- | [<- | [<- | [<- | []]]]]]].
    - exists (Cases.concern_body "security vulnerabilities"),
        (Cases.concern_body_formatted "security vulnerabilities"), nl, nl.
      repeat split; vm_compute; reflexivity.
    - exists (Cases.concern_body "performance issues"),
        (Cases.concern_body_formatted "performance issues"), nl, nl.
      repeat split; vm_compute; reflexivity.
    - exists (Cases.concern_body "memory management issues"),
        (Cases.concern_body_formatted "memory management issues"), nl, nl.
      repeat split; vm_compute; reflexivity.
    - exists (Cases.concern_body "code correctness issues"),
        (Cases.concern_body_formatted "code correctness issues"), nl, nl.
      repeat split; vm_compute; reflexivity.
    - exists (Cases.concern_body "maintainability issues"),
        (Cases.concern_body_formatted "maintainability issues"), nl, nl.
      repeat split; vm_compute; reflexivity.
    - exists (Cases.concern_body "reliability issues"),
        (Cases.concern_body_formatted "reliability issues"), nl, nl.
      repeat split; vm_compute; reflexivity. }
  assert (H0 : nth_error
                 (fst (_conduct_code_refactor Demo.two_passes (PStr "a=1")
                         Demo.from_file_id PNone Demo.a_py [])) 0
               = Some Demo.first_prompt) by (vm_compute; reflexivity).
  assert (H1 : nth_error
                 (fst (_conduct_code_refactor Demo.two_passes (PStr "a=1")
                         Demo.from_file_id PNone Demo.a_py [])) 1
               = Some Demo.second_prompt) by (vm_compute; reflexivity).
  split; [exact Hlayout | split; [exact H0 | split; [exact H1 | ]]].
  destruct (only_the_first_code_is_numbered Demo.two_passes "a=1"
              Demo.from_file_id PNone Demo.a_py)
    as (numbered & base & templates & Hn & _ & _ & first & next).
  split.
  - destruct (first Demo.first_prompt H0) as (t & _ & _ & _ & _ & shown).
    cbn in Hn. injection Hn as Hn. rewrite <- Hn in shown.
    exact (shown Hlayout).
  - destruct (next 0 Demo.first_prompt Demo.second_prompt H0 H1)
      as (t & reply & code & _ & Hr & Hg & _ & shown).
    exists reply, code. split; [exact Hr | split; [exact Hg | ]].
    exact (shown Hlayout).
Defined.

(** C9 as the claim states it fails twice.  At the second pass: Security
    returned the code [a = 1  # spaced], and the prompt of Performance
    shows that text between the markers with no number in front; it is not
    the prompt the numbered text would give.  At the first pass: for a file
    whose second line starts with a tab, the numbered line is not in the
    prompt, which shows the [repr] of the list of lines, the tab written as
    a backslash and a [t]. *)
Lemma later_pass_counterexample :
  (code_with_line_numbers (PStr "a = 1  # spaced")
   = Ok (PList [PStr "1: a = 1  # spaced"])
   /\ exists sent_second from_numbered,
        nth_error (fst (conduct_code_refactor_from_file_id Demo.two_passes 7
                          PNone [])) 1 = Some sent_second
        /\ contains (Demo.between_markers "a = 1  # spaced") sent_second = true
        /\ contains "1: a = 1  # spaced" sent_second = false
        /\ code_refactor_prompt Demo.two_passes (name Demo.performance)
             Demo.base (PList [PStr "1: a = 1  # spaced"]) Demo.a_py PNone
           = Ok from_numbered
        /\ String.eqb sent_second from_numbered = false)
  /\ (get_file_data Cases.tabbed 7 = Ok Cases.tabbed_text
      /\ code_with_line_numbers (PStr Cases.tabbed_text)
         = Ok (PList [PStr "1: if x:"; PStr ("2: " ++ chr 9 ++ "y = 1")])
      /\ exists sent_first,
           nth_error (fst (conduct_code_refactor_from_file_id Cases.tabbed 7
                             PNone [])) 0 = Some sent_first
           /\ contains ("2: " ++ chr 9 ++ "y = 1") sent_first = false
           /\ contains (Demo.between_markers "['1: if x:', '2: \ty = 1']")
                sent_first = true).
Proof.
  split.
  - split; [reflexivity | ].
    do 2 eexists. repeat split; vm_compute; reflexivity.
  - split; [reflexivity | split; [reflexivity | ]].
    eexists. repeat split; vm_compute; reflexivity.
Qed.

(** * Replies that lack a required field *)








